(** * show-dir: the directory-listing middleware of http-server

    A shallow embedding of [lib/core/show-dir/index.js] and the properties
    of its listing pipeline: dotfile filtering, the parent-entry rule, row
    rendering (shortcut links, icons, timestamps), bucket ordering and the
    outcome of a request.

    JavaScript strings are embedded as [string]; a character stands for one
    code unit below 256.  Node and V8 built-ins used by the file
    ([String.prototype.*], [Array.prototype.sort], [Date.prototype.toISOString],
    [path.*]) are given executable definitions; functions imported from
    modules that are not part of the listing code ([he.encode],
    [encodeURIComponent], [sizeToString], the icon table, [etag], ...) are
    section variables. *)

From Stdlib Require Import String Ascii List ZArith Lia Bool DecimalString.
From Stdlib Require Import Sorted Permutation.
Import ListNotations.

Local Open Scope string_scope.
Local Open Scope Z_scope.

(* ================================================================== *)
(** ** String built-ins *)

Module JsString.

(** [s.slice(0, n)] for [n >= 0]: the first [n] code units, or all of [s]. *)
Definition slice0 (n : nat) (s : string) : string := substring 0 n s.

(** [s.substring(0, n)]. *)
Definition substring0 (n : nat) (s : string) : string := substring 0 n s.

(** [s.endsWith(suffix)]. *)
Definition endsWith (s suffix : string) : bool :=
  let n := String.length s in
  let m := String.length suffix in
  (m <=? n)%nat && String.eqb (substring (n - m) m s) suffix.

(** [s.startsWith(p)]. *)
Definition startsWith (s p : string) : bool := prefix p s.

(** [s.split(sep)] for a separator of one code unit; never empty. *)
Fixpoint split (sep : ascii) (s : string) : list string :=
  match s with
  | EmptyString => [EmptyString]
  | String c s' =>
      if Ascii.eqb c sep then EmptyString :: split sep s'
      else match split sep s' with
           | [] => [String c EmptyString]
           | p :: ps => String c p :: ps
           end
  end.

(** [a.pop()] on the array returned by [split]: its last element. *)
Definition pop (l : list string) : string := last l EmptyString.

(** [a.join(sep)]. *)
Definition join (sep : string) (l : list string) : string := String.concat sep l.

(** [s.repeat(n)]. *)
Fixpoint repeat (s : string) (n : nat) : string :=
  match n with
  | O => EmptyString
  | S n' => s ++ repeat s n'
  end.

(** Drop the first [n] code units. *)
Fixpoint drop (n : nat) (s : string) : string :=
  match n, s with
  | O, _ => s
  | S _, EmptyString => EmptyString
  | S n', String _ s' => drop n' s'
  end.

(** [s.replace(pat, rep)] with a string pattern: only the first
    occurrence is replaced ([rep] holds no [$] pattern at the call
    sites). *)
Fixpoint replace (pat rep s : string) : string :=
  match s with
  | EmptyString => if prefix pat EmptyString then rep else EmptyString
  | String c s' =>
      if prefix pat s then rep ++ drop (String.length pat) s
      else String c (replace pat rep s')
  end.

(** [s.replace(/\/$/, '')]: one trailing slash is removed. *)
Fixpoint stripTrailingSlash (s : string) : string :=
  match s with
  | EmptyString => EmptyString
  | String c EmptyString => if Ascii.eqb c "/" then EmptyString else s
  | String c s' => String c (stripTrailingSlash s')
  end.

(** White space and line terminators among the code units below 256:
    TAB, LF, VT, FF, CR, SP and NBSP. *)
Definition isWhiteSpace (c : ascii) : bool :=
  let n := nat_of_ascii c in
  ((9 <=? n) && (n <=? 13) || (n =? 32) || (n =? 160))%nat.

Fixpoint trimStart (s : string) : string :=
  match s with
  | EmptyString => EmptyString
  | String c s' => if isWhiteSpace c then trimStart s' else s
  end.

Fixpoint trimEnd (s : string) : string :=
  match s with
  | EmptyString => EmptyString
  | String c s' =>
      match trimEnd s' with
      | EmptyString => if isWhiteSpace c then EmptyString
                       else String c EmptyString
      | t => String c t
      end
  end.

(** [s.trim()]. *)
Definition trim (s : string) : string := trimEnd (trimStart s).

(** Membership of a code unit. *)
Fixpoint mem (c : ascii) (s : string) : bool :=
  match s with
  | EmptyString => false
  | String a s' => Ascii.eqb a c || mem c s'
  end.

End JsString.


(* ================================================================== *)
(** ** POSIX [path] *)

Module Path.

Definition isAbsolute (p : string) : bool :=
  match p with
  | String c _ => Ascii.eqb c "/"
  | EmptyString => false
  end.

(** The segment walk of Node's [normalizeString]: empty and ["."] segments
    are dropped, [".."] removes the segment before it, or is kept when
    there is none to remove and [allowAboveRoot] holds.  [acc] is the
    output so far, last segment first. *)
Fixpoint normalizeSegs (allowAboveRoot : bool) (acc segs : list string)
  : list string :=
  match segs with
  | [] => rev acc
  | seg :: rest =>
      if String.eqb seg "" || String.eqb seg "." then
        normalizeSegs allowAboveRoot acc rest
      else if String.eqb seg ".." then
        match acc with
        | top :: acc' =>
            if String.eqb top ".." then
              normalizeSegs allowAboveRoot
                (if allowAboveRoot then ".." :: acc else acc) rest
            else normalizeSegs allowAboveRoot acc' rest
        | [] =>
            normalizeSegs allowAboveRoot
              (if allowAboveRoot then [".."] else []) rest
        end
      else normalizeSegs allowAboveRoot (seg :: acc) rest
  end.

Definition normalizeString (p : string) (allowAboveRoot : bool) : string :=
  JsString.join "/" (normalizeSegs allowAboveRoot [] (JsString.split "/" p)).

(** [path.normalize(p)]. *)
Definition normalize (p : string) : string :=
  if String.eqb p "" then "."
  else
    let abs := isAbsolute p in
    let trailing := JsString.endsWith p "/" in
    let n := normalizeString p (negb abs) in
    if String.eqb n "" then
      if abs then "/" else if trailing then "./" else "."
    else
      let n' := if trailing then n ++ "/" else n in
      if abs then "/" ++ n' else n'.

(** [path.join(...args)]. *)
Definition join (args : list string) : string :=
  match filter (fun a => negb (String.eqb a "")) args with
  | [] => "."
  | parts => normalize (JsString.join "/" parts)
  end.

(** The right-to-left scan of [path.resolve]: arguments are prepended
    until an absolute one is met. *)
Fixpoint resolveScan (revArgs : list string) (acc : string) : string * bool :=
  match revArgs with
  | [] => (acc, false)
  | p :: rest =>
      if String.eqb p "" then resolveScan rest acc
      else
        let acc' := p ++ "/" ++ acc in
        if isAbsolute p then (acc', true) else resolveScan rest acc'
  end.

(** [path.resolve(...args)], with [cwd] the working directory of the
    process. *)
Definition resolve (cwd : string) (args : list string) : string :=
  let '(rp, abs) := resolveScan (rev (cwd :: args)) "" in
  let n := normalizeString rp (negb abs) in
  if abs then "/" ++ n
  else if String.eqb n "" then "." else n.

Definition segments (p : string) : list string :=
  filter (fun a => negb (String.eqb a "")) (JsString.split "/" p).

Fixpoint dropCommon (a b : list string) : list string * list string :=
  match a, b with
  | x :: a', y :: b' => if String.eqb x y then dropCommon a' b' else (a, b)
  | _, _ => (a, b)
  end.

(** [path.relative(from, to)]: both are resolved, the common leading
    segments are dropped, every remaining segment of [from] becomes
    [".."]. *)
Definition relative (cwd from to : string) : string :=
  if String.eqb from to then ""
  else
    let '(f, t) := dropCommon (segments (resolve cwd [from]))
                              (segments (resolve cwd [to])) in
    JsString.join "/" (map (fun _ => "..") f ++ t)%list.

End Path.

(* ================================================================== *)
(** ** [Date.prototype.toISOString] *)

Module JsDate.

Definition msPerDay : Z := 86400000.

(** Largest magnitude of a time value; beyond it a Date holds NaN. *)
Definition maxTime : Z := 8640000000000000.

(** Year, month (1-12) and day of month of a day number counted from
    1970-01-01 in the proleptic Gregorian calendar. *)
Definition civil (days : Z) : Z * Z * Z :=
  let z := days + 719468 in
  let era := z / 146097 in
  let doe := z - era * 146097 in
  let yoe := (doe - doe / 1460 + doe / 36524 - doe / 146096) / 365 in
  let doy := doe - (365 * yoe + yoe / 4 - yoe / 100) in
  let mp := (5 * doy + 2) / 153 in
  let d := doy - (153 * mp + 2) / 5 + 1 in
  let m := if mp <? 10 then mp + 3 else mp - 9 in
  let y := yoe + era * 400 + (if m <=? 2 then 1 else 0) in
  (y, m, d).

Definition digit (d : Z) : ascii := ascii_of_nat (48 + Z.to_nat (d mod 10)).

(** The [w] low decimal digits of [n], most significant first. *)
Fixpoint pad (w : nat) (n : Z) : string :=
  match w with
  | O => EmptyString
  | S w' => pad w' (n / 10) ++ String (digit n) EmptyString
  end.

Definition isoYear (y : Z) : string :=
  if (0 <=? y) && (y <=? 9999) then pad 4 y
  else (if y <? 0 then "-" else "+") ++ pad 6 (Z.abs y).

Definition isoDate (t : Z) : string :=
  let '(y, m, d) := civil (t / msPerDay) in
  isoYear y ++ "-" ++ pad 2 m ++ "-" ++ pad 2 d.

Definition isoTime (t : Z) : string :=
  let ms := t mod msPerDay in
  pad 2 (ms / 3600000) ++ ":" ++ pad 2 (ms / 60000 mod 60) ++ ":"
    ++ pad 2 (ms / 1000 mod 60).

Definition isoMillis (t : Z) : string := pad 3 (t mod 1000).

(** A time value: [None] is NaN (an invalid Date). *)
Definition TimeValue := option Z.

Definition validTime (t : Z) : bool := Z.abs t <=? maxTime.

(** [d.toISOString()]; [None] stands for the RangeError thrown on an
    invalid Date. *)
Definition toISOString (tv : TimeValue) : option string :=
  match tv with
  | Some t =>
      if validTime t then
        Some (isoDate t ++ "T" ++ isoTime t ++ "." ++ isoMillis t ++ "Z")
      else None
  | None => None
  end.

End JsDate.

(* ================================================================== *)
(** ** [Array.prototype.sort] with a comparator *)

Module JsArray.
Section Sort.
Context {A : Type}.
Variable cmp : A -> A -> Z.

(** [x] goes in front of the first element it does not sort after; [x]
    stood before every element of [l] in the array, so ties keep their
    order. *)
Fixpoint insert (x : A) (l : list A) : list A :=
  match l with
  | [] => [x]
  | y :: l' => if cmp x y <=? 0 then x :: l else y :: insert x l'
  end.

(** [a.sort(cmp)]: the stable sort (ECMAScript 2019). *)
Definition sort (l : list A) : list A := fold_right insert [] l.

End Sort.
End JsArray.

(* ================================================================== *)
(** ** Data model *)

(** The error object of a failed file-system call. *)
Definition Errno := string.

(** The fields of [fs.Stats] the listing reads. *)
Record Stats := mkStats {
  isDirectory : bool;
  size : Z;
  mtime : JsDate.TimeValue
}.

(** The second slot of a [[name, stat]] tuple: the stat object, or [None]
    for an entry whose stat failed.  [writeRow] reads [isDirectory] and
    [mtime] off the slot behind a guard ([file[1].isDirectory && ...]) and
    a [try], and the comment of lines 180-186 has these entries rendered,
    so the slot of a failed stat is taken to hold an object without the
    two fields (the error of the stat); on a literal [null] the read of
    line 113 would throw. *)
Definition Meta := option Stats.

Definition Entry : Type := string * Meta.

(** A path the calls of [fs] accept: one that holds no NUL.  On any
    other path a call throws [ERR_INVALID_ARG_VALUE] at once, before any
    callback is scheduled. *)
Definition validPath (p : string) : bool :=
  negb (JsString.mem Ascii.zero p).

Definition invalidArg : Errno := "ERR_INVALID_ARG_VALUE".

(** What the file system answers on the paths it accepts. *)
Record FileSystem := mkFS {
  statAt : string -> Errno + Stats;
  readdirAt : string -> Errno + list string;
  readFileAt : string -> Errno + string
}.

(** The outcome of [fs.stat], [fs.readdir] and [fs.readFileSync] on a
    path: the error or the result.  On a path that is not accepted the
    outcome is the error of the argument check, which the call throws
    by itself; no call gives a result there. *)
Definition stat (fs : FileSystem) (p : string) : Errno + Stats :=
  if validPath p then statAt fs p else inl invalidArg.

Definition readdir (fs : FileSystem) (p : string) : Errno + list string :=
  if validPath p then readdirAt fs p else inl invalidArg.

Definition readFileSync (fs : FileSystem) (p : string) : Errno + string :=
  if validPath p then readFileAt fs p else inl invalidArg.

(** [opts], as parsed by [opts.js]. *)
Record Options := mkOptions {
  cache : string;
  root : string;
  baseDir : string;
  humanReadable : bool;
  hidePermissions : bool;
  handleError : bool;
  showDotfiles : bool;
  si : bool;
  weakEtags : bool
}.

(** What the middleware reads of [req]: [url.parse(req.url)] gives
    [pathname] and [search] ([None] is [null]); [host] is
    [req.headers.host] ([None] is [undefined]). *)
Record Request := mkRequest {
  pathname : string;
  search : option string;
  host : option string
}.

(** Calls on [res], [next] and the status handler, in order. *)
Inductive Event :=
| SetHeader (name value : string)
| WriteHead (status : Z) (name value : string)
| EndBody (body : string)
| Next
| Status500 (error : Errno).

Inductive Exn :=
| TypeError (msg : string)
| URIError
| FsError (error : Errno).

(** How a piece of code finishes. *)
Inductive Completion (A : Type) :=
| Returned (a : A)
| Threw (e : Exn).
Arguments Returned {A} a.
Arguments Threw {A} e.

(** A computation: the events it produced and how it finished. *)
Definition M (A : Type) : Type := list Event * Completion A.

Definition ret {A} (a : A) : M A := ([], Returned a).

Definition bind {A B} (m : M A) (k : A -> M B) : M B :=
  match m with
  | (t, Returned a) => let '(t', r) := k a in ((t ++ t')%list, r)
  | (t, Threw e) => (t, Threw e)
  end.

Definition emit (e : Event) : M unit := ([e], Returned tt).

Definition throw {A} (e : Exn) : M A := ([], Threw e).

Definition lift {A} (c : Completion A) : M A := ([], c).

(** A call of [fs] that takes a callback: on a path that is not accepted
    it throws in the caller and the callback never runs; on any other
    path the callback gets the outcome. *)
Definition asyncCall {A} (p : string) (outcome : Errno + A)
    (cb : Errno + A -> M unit) : M unit :=
  if validPath p then cb outcome else throw (TypeError invalidArg).

Notation "x <- m ;; k" := (bind m (fun x => k))
  (at level 61, m at next level, right associativity).
Notation "m ;;; k" := (bind m (fun _ => k))
  (at level 61, right associativity).

Definition trace {A} (m : M A) : list Event := fst m.
Definition completion {A} (m : M A) : Completion A := snd m.

(** *** Outcomes of a request *)

Definition isWriteHead (e : Event) : bool :=
  match e with WriteHead _ _ _ => true | _ => false end.
Definition isEndBody (e : Event) : bool :=
  match e with EndBody _ => true | _ => false end.
Definition isErrorCall (e : Event) : bool :=
  match e with Next | Status500 _ => true | _ => false end.

Definition count (p : Event -> bool) (t : list Event) : nat :=
  List.length (filter p t).

(** One successful response: a single [writeHead(200)] directly followed
    by a single [end(body)], and no error call. *)
Definition successOutcome (t : list Event) : Prop :=
  (exists pre body,
      t = (pre ++ [WriteHead 200 "Content-Type" "text/html"; EndBody body])%list
      /\ count isWriteHead pre = 0%nat /\ count isEndBody pre = 0%nat)
  /\ count isErrorCall t = 0%nat.

(** One error outcome: a single call of the status handler or of [next],
    and nothing written. *)
Definition errorOutcome (t : list Event) : Prop :=
  count isErrorCall t = 1%nat
  /\ count isWriteHead t = 0%nat /\ count isEndBody t = 0%nat.

Definition noOutcome (t : list Event) : Prop :=
  count isErrorCall t = 0%nat
  /\ count isWriteHead t = 0%nat /\ count isEndBody t = 0%nat.

(** *** Text fragments *)

Definition nl : string := String (ascii_of_nat 10) EmptyString.
Definition dq : string := String (ascii_of_nat 34) EmptyString.
Definition q (s : string) : string := dq ++ s ++ dq.

(** The cells of one table row, as [writeRow] computes them. *)
Record Row := mkRow {
  iconClass : string;
  external : bool;
  href : string;
  displayName : string;
  lastModified : string;
  filesize : string
}.

(** The value handed to [convertDateTime]: [file[1].mtime]. *)
Inductive MTimeSlot :=
| MUndefined
| MDate (tv : JsDate.TimeValue).

Definition mtimeOf (m : Meta) : MTimeSlot :=
  match m with
  | Some s => MDate (mtime s)
  | None => MUndefined
  end.

(* ================================================================== *)
(** ** Stand-ins for the imported functions, and sample inputs

    The theorems below hold for every choice of the imported functions;
    the definitions here give one choice, on which the examples are run. *)

Module Sample.

Definition hexDigit (n : nat) : ascii :=
  ascii_of_nat (if (n <? 10)%nat then 48 + n else 55 + n).

Definition hex2 (n : nat) : string :=
  String (hexDigit (n / 16)) (String (hexDigit (n mod 16)) EmptyString).

(** [n.toString(16).toUpperCase()] below 256. *)
Definition hexOf (n : nat) : string :=
  if (n <? 16)%nat then String (hexDigit n) EmptyString else hex2 n.

(** The code units [he.encode] turns into a hexadecimal reference. *)
Definition heEscaped (n : nat) : bool :=
  ((n =? 34) || (n =? 38) || (n =? 39) || (n =? 60) || (n =? 62) || (n =? 96)
   || ((1 <=? n) && (n <=? 9)) || (n =? 11) || (n =? 12)
   || ((14 <=? n) && (n <=? 31)) || (n =? 127) || (n =? 129) || (n =? 141)
   || (n =? 143) || (n =? 144) || (n =? 157) || (160 <=? n))%nat.

Fixpoint he_encode (s : string) : string :=
  match s with
  | EmptyString => EmptyString
  | String c s' =>
      let n := nat_of_ascii c in
      (if heEscaped n then "&#x" ++ hexOf n ++ ";" else String c EmptyString)
        ++ he_encode s'
  end.

(** The code units [encodeURIComponent] leaves alone. *)
Definition uriUnreserved (n : nat) : bool :=
  (((48 <=? n) && (n <=? 57)) || ((65 <=? n) && (n <=? 90))
   || ((97 <=? n) && (n <=? 122))
   || (n =? 45) || (n =? 95) || (n =? 46) || (n =? 33) || (n =? 126)
   || (n =? 42) || (n =? 39) || (n =? 40) || (n =? 41))%nat.

Fixpoint encodeURIComponent (s : string) : string :=
  match s with
  | EmptyString => EmptyString
  | String c s' =>
      let n := nat_of_ascii c in
      (if uriUnreserved n then String c EmptyString
       else if (n <? 128)%nat then "%" ++ hex2 n
       else "%" ++ hex2 (192 + n / 64) ++ "%" ++ hex2 (128 + n mod 64))
        ++ encodeURIComponent s'
  end.

Definition hexValue (c : ascii) : option nat :=
  let n := nat_of_ascii c in
  if ((48 <=? n) && (n <=? 57))%nat then Some (n - 48)%nat
  else if ((65 <=? n) && (n <=? 70))%nat then Some (n - 55)%nat
  else if ((97 <=? n) && (n <=? 102))%nat then Some (n - 87)%nat
  else None.

(** [decodeURIComponent] on escapes of one byte below 128; any other
    escape is rejected. *)
Fixpoint decodeURIComponent (s : string) : option string :=
  match s with
  | EmptyString => Some EmptyString
  | String c s' =>
      if Ascii.eqb c "%" then
        match s' with
        | String h (String l rest) =>
            match hexValue h, hexValue l, decodeURIComponent rest with
            | Some a, Some b, Some r =>
                if (a <? 8)%nat then
                  Some (String (ascii_of_nat (16 * a + b)) r)
                else None
            | _, _, _ => None
            end
        | _ => None
        end
      else
        match decodeURIComponent s' with
        | Some r => Some (String c r)
        | None => None
        end
  end.

(** Comparison by code units: what [localeCompare] gives without
    collation data. *)
Fixpoint localeCompare (a b : string) : Z :=
  match a, b with
  | EmptyString, EmptyString => 0
  | EmptyString, String _ _ => -1
  | String _ _, EmptyString => 1
  | String x a', String y b' =>
      match Nat.compare (nat_of_ascii x) (nat_of_ascii y) with
      | Lt => -1
      | Gt => 1
      | Eq => localeCompare a' b'
      end
  end.

Definition decimal (z : Z) : string := NilZero.string_of_int (Z.to_int z).

(** The byte count in decimal, and the [??k] of an entry without a
    size. *)
Definition sizeToString (m : Meta) (human si : bool) : string :=
  match m with
  | Some s => if isDirectory s then EmptyString else decimal (size s) ++ "B"
  | None => "??k"
  end.

Definition supportedIcons (ext : string) : bool :=
  existsb (String.eqb ext)
    ["_blank"; "_page"; "css"; "gif"; "html"; "jpg"; "js"; "json"; "md";
     "pdf"; "png"; "txt"; "zip"].

Definition css : string := "i.icon { display: block; }".

Definition etag (s : Stats) (weak : bool) : string :=
  (if weak then "W/" else "")
    ++ q (decimal (size s) ++ "-"
          ++ match JsDate.toISOString (mtime s) with
             | Some iso => iso
             | None => "Invalid Date"
             end).

Definition dayName (d : Z) : string :=
  nth (Z.to_nat d) ["Sun"; "Mon"; "Tue"; "Wed"; "Thu"; "Fri"; "Sat"] "".

Definition monthName (m : Z) : string :=
  nth (Z.to_nat (m - 1))
    ["Jan"; "Feb"; "Mar"; "Apr"; "May"; "Jun"; "Jul"; "Aug"; "Sep"; "Oct";
     "Nov"; "Dec"] "".

Definition toUTCString (tv : JsDate.TimeValue) : string :=
  match tv with
  | Some t =>
      if JsDate.validTime t then
        let days := t / JsDate.msPerDay in
        let '(y, m, d) := JsDate.civil days in
        dayName ((days + 4) mod 7) ++ ", " ++ JsDate.pad 2 d ++ " "
          ++ monthName m ++ " "
          ++ (if y <? 0 then "-" ++ JsDate.pad 6 (- y) else JsDate.pad 4 y)
          ++ " " ++ JsDate.isoTime t ++ " GMT"
      else "Invalid Date"
  | None => "Invalid Date"
  end.

Definition cwd : string := "/home/node".

(** String form of the slot of a failed stat (an Error object). *)
Definition markerToString : string := "Error: ENOENT".

Definition dirStats (t : Z) : Stats :=
  {| isDirectory := true; size := 4096; mtime := Some t |}.

Definition fileStats (n t : Z) : Stats :=
  {| isDirectory := false; size := n; mtime := Some t |}.

Definition opts (propagate dotfiles : bool) : Options :=
  {| cache := "max-age=3600";
     root := "/srv";
     baseDir := "/";
     humanReadable := true;
     hidePermissions := false;
     handleError := propagate;
     showDotfiles := dotfiles;
     si := false;
     weakEtags := true |}.

(** A file system given by three tables of results; a path missing from
    a table fails with ENOENT. *)
Fixpoint lookup {A} (k : string) (l : list (string * (Errno + A)))
  : Errno + A :=
  match l with
  | [] => inl "ENOENT"
  | (k', v) :: l' => if String.eqb k k' then v else lookup k l'
  end.

Definition mkWorld (stats : list (string * (Errno + Stats)))
    (dirs : list (string * (Errno + list string)))
    (texts : list (string * (Errno + string)))
  : FileSystem :=
  {| statAt := fun p => lookup p stats;
     readdirAt := fun p => lookup p dirs;
     readFileAt := fun p => lookup p texts |}.

(** [/srv/a] with a dotfile, plain files, a shortcut, a sub-directory and
    a name whose stat fails. *)
Definition world : FileSystem :=
  mkWorld
    [("/srv", inr (dirStats 1600000000000));
     ("/srv/a", inr (dirStats 1700000000000));
     ("/srv/a/.env", inr (fileStats 10 1700000000000));
     ("/srv/a/a.txt", inr (fileStats 12 1700000001000));
     ("/srv/a/a", inr (fileStats 1 1700000002000));
     ("/srv/a/a b", inr (fileStats 2 1700000003000));
     ("/srv/a/png", inr (fileStats 3 1700000004000));
     ("/srv/a/link.url", inr (fileStats 20 1700000005000));
     ("/srv/a/sub", inr (dirStats 1700000006000))]
    [("/srv", inr ["a"]);
     ("/srv/a", inr [".env"; "a.txt"; "a"; "a b"; "png"; "link.url"; "sub";
                     "ghost"])]
    [("/srv/a/link.url", inr ("https://example.com" ++ nl))].

(** [/srv/a] is listed, but the stat of [/srv] fails. *)
Definition worldParentFails : FileSystem :=
  mkWorld
    [("/srv", inl "EIO");
     ("/srv/a", inr (dirStats 1700000000000));
     ("/srv/a/a.txt", inr (fileStats 12 1700000001000))]
    [("/srv/a", inr ["a.txt"])]
    [].

(** [/srv/a] holds a shortcut that cannot be read. *)
Definition worldBrokenShortcut : FileSystem :=
  mkWorld
    [("/srv", inr (dirStats 1600000000000));
     ("/srv/a", inr (dirStats 1700000000000));
     ("/srv/a/a.txt", inr (fileStats 12 1700000001000));
     ("/srv/a/gone.url", inr (fileStats 20 1700000005000))]
    [("/srv/a", inr ["a.txt"; "gone.url"])]
    [("/srv/a/gone.url", inl "ENOENT")].

(** A request for [/a/]. *)
Definition request (h : option string) : Request :=
  {| pathname := "/a/"; search := None; host := h |}.

End Sample.

(* ================================================================== *)
(** ** The middleware *)

Section ShowDir.

(** [he.encode] and the URI coders. [decodeURIComponent] gives [None]
    where it throws a URIError. *)
Variable he_encode : string -> string.
Variable encodeURIComponent : string -> string.
Variable decodeURIComponent : string -> option string.

(** [a.localeCompare(b)]. *)
Variable localeCompare : string -> string -> Z.

(** [size-to-string.js], [styles.js] and [etag.js] are not among the
    sources: [supportedIcons ext] is the truth value of
    [styles.icons[ext]]. *)
Variable sizeToString : Meta -> bool -> bool -> string.
Variable supportedIcons : string -> bool.
Variable css : string.
Variable etag : Stats -> bool -> string.

(** [(new Date(t)).toUTCString()]. *)
Variable toUTCString : JsDate.TimeValue -> string.

(** String form of the slot of a failed stat, as [Array.prototype.join]
    prints it. *)
Variable markerToString : string.

(** The process: its working directory and its file system. *)
Variable cwd : string.
Variable fs : FileSystem.

(** [root], line 20. *)
Definition resolvedRoot (opts : Options) : string :=
  Path.resolve cwd [root opts].

(** [dir], lines 33-41. *)
Definition targetDir (opts : Options) (decoded : string) : string :=
  Path.normalize
    (Path.join [resolvedRoot opts;
                Path.relative cwd (Path.join ["/"; baseDir opts]) decoded]).

(** The error branch shared by lines 44-51, 57-64 and 191-198. *)
Definition fail (opts : Options) (err : Errno) : M unit :=
  if handleError opts then emit (Status500 err) else emit Next.

(** Lines 66-69. *)
Definition filterDotfiles (opts : Options) (files : list string)
  : list string :=
  if negb (showDotfiles opts) then
    filter (fun filename =>
              negb (String.eqb (JsString.slice0 1 filename) ".")) files
  else files.

(** Modelled from the spec: [sort-files.js] is not among the sources.
    Each name is stat'ed under the directory; a directory goes to [dirs],
    any other stat'ed entry to [files], and a name whose stat failed to
    [unknowns] without a stat (the spec's [[name, null]]); the three
    buckets are handed over once, as [(unknowns, dirs, files)], each in
    the order of the names. *)
Fixpoint sortFiles (dir : string) (names : list string)
  : list Entry * list Entry * list Entry :=
  match names with
  | [] => ([], [], [])
  | name :: rest =>
      let '(unknowns, dirs, files) := sortFiles dir rest in
      match stat fs (Path.join [dir; name]) with
      | inl _ => ((name, None) :: unknowns, dirs, files)
      | inr s =>
          if isDirectory s then (unknowns, (name, Some s) :: dirs, files)
          else (unknowns, dirs, (name, Some s) :: files)
      end
  end.

(** The opening of the page, lines 79-96. *)
Definition pageHead (decoded : string) : string :=
  JsString.join nl
    [ "<!DOCTYPE html>";
      "<html lang=" ++ q "en" ++ ">";
      "  <head>";
      "    <meta charset=" ++ q "utf-8" ++ ">";
      "    <meta name=" ++ q "robots" ++ " content="
        ++ q "noindex, nofollow" ++ ">";
      "    <meta name=" ++ q "viewport" ++ " content="
        ++ q "width=device-width" ++ ">";
      "    <link rel=" ++ q "stylesheet" ++ " href="
        ++ q "/.theme/css/bootstrap.css" ++ ">";
      "    <link rel=" ++ q "stylesheet" ++ " href="
        ++ q "/.theme/css/main.css" ++ ">";
      "    <title>Index of " ++ he_encode decoded ++ "</title>";
      "    <style type=" ++ q "text/css" ++ ">" ++ css ++ "</style>";
      "  </head>";
      "  <body>";
      "<div class=" ++ q "container" ++ ">";
      "<h1>Index of " ++ he_encode decoded ++ "</h1><hr>" ]
    ++ nl ++ "<table>".

(** The placeholder of lines 106-107. *)
Definition noDatePlaceholder : string :=
  let nbsps := JsString.repeat "&nbsp;" 9 in
  nbsps ++ "-" ++ nbsps.

(** [convertDateTime], lines 100-110.  Reading [toISOString] off
    [undefined] throws a TypeError, calling it on an invalid Date a
    RangeError; the [catch] takes both. *)
Definition convertDateTime (dt : MTimeSlot) : string :=
  match dt with
  | MUndefined => noDatePlaceholder
  | MDate tv =>
      match JsDate.toISOString tv with
      | None => noDatePlaceholder
      | Some iso =>
          let datetime := hd EmptyString (JsString.split "." iso) in
          JsString.replace "T" " " datetime
      end
  end.

(** [isDir], line 113. *)
Definition isDir (file : Entry) : bool :=
  match snd file with
  | Some s => isDirectory s
  | None => false
  end.

(** Lines 130-132. *)
Definition extOf (name : string) : string :=
  JsString.pop (JsString.split "." name).

Definition iconClassOf (dir : bool) (name : string) : string :=
  let ext := extOf name in
  let classForNonDir := if supportedIcons ext then ext else "_page" in
  "icon-" ++ (if dir then "folder" else classForNonDir).

(** The cells of a row, lines 113-133.  The synchronous read of line 124
    throws when the file cannot be read. *)
Definition rowOf (req : Request) (opts : Options) (parent : string)
    (file : Entry) : Completion Row :=
  let name := fst file in
  let dir := isDir file in
  let lastModified := convertDateTime (mtimeOf (snd file)) in
  let href0 := JsString.stripTrailingSlash (pathname req) ++ "/"
                 ++ encodeURIComponent name in
  let href1 :=
    if dir then
      href0 ++ "/" ++ he_encode (match search req with
                                 | Some s => s
                                 | None => EmptyString
                                 end)
    else href0 in
  if negb dir && JsString.endsWith name ".url" then
    match readFileSync fs (Path.resolve cwd [parent; name]) with
    | inl err => Threw (FsError err)
    | inr content =>
        let name' := JsString.substring0 (String.length name - 4) name in
        Returned
          {| iconClass := iconClassOf dir name';
             external := true;
             href := JsString.trim content;
             displayName := he_encode name' ++ (if dir then "/" else "");
             lastModified := lastModified;
             filesize := JsString.replace "??k" "0B" "-" |}
    end
  else
    Returned
      {| iconClass := iconClassOf dir name;
         external := false;
         href := href1;
         displayName := he_encode name ++ (if dir then "/" else "");
         lastModified := lastModified;
         filesize :=
           JsString.replace "??k" "0B"
             (sizeToString (snd file) (humanReadable opts) (si opts)) |}.

(** The text of a row, lines 136-147. *)
Definition rowHtml (r : Row) : string :=
  "<tr>" ++ "<td><i class=" ++ dq ++ "icon " ++ iconClass r ++ dq
    ++ "></i></td>"
    ++ (if external r then
          "<td class=" ++ q "display-name external" ++ "><a href="
            ++ q (href r) ++ " target=" ++ q "_blank" ++ ">"
            ++ displayName r ++ "</a></td>"
        else
          "<td class=" ++ q "display-name" ++ "><a href=" ++ q (href r)
            ++ ">" ++ displayName r ++ "</a></td>")
    ++ "<td class=" ++ q "modified" ++ "><code>" ++ lastModified r
    ++ "</code></td>"
    ++ "<td class=" ++ q "filesize" ++ "><code>" ++ filesize r
    ++ "</code></td>" ++ "</tr>" ++ nl.

(** [writeRow], lines 111-148: the row is appended to [html]. *)
Definition writeRow (req : Request) (opts : Options) (parent : string)
    (html : string) (file : Entry) : Completion string :=
  match rowOf req opts parent file with
  | Returned r => Returned (html ++ rowHtml r)
  | Threw e => Threw e
  end.

(** [a.forEach(writeRow)]. *)
Fixpoint forEachRow (req : Request) (opts : Options) (parent : string)
    (files : list Entry) (html : string) : Completion string :=
  match files with
  | [] => Returned html
  | file :: rest =>
      match writeRow req opts parent html file with
      | Returned html' => forEachRow req opts parent rest html'
      | Threw e => Threw e
      end
  end.

(** String form of an entry: [[name, stat].toString()] joins the name and
    the string form of the second slot with a comma; a [Stats] object
    gives [[object Object]]. *)
Definition entryToString (e : Entry) : string :=
  fst e ++ "," ++ (match snd e with
                   | Some _ => "[object Object]"
                   | None => markerToString
                   end).

(** The comparators of lines 150-152. *)
Definition byName (a b : Entry) : Z := localeCompare (fst a) (fst b).
Definition byToString (a b : Entry) : Z :=
  localeCompare (entryToString a) (entryToString b).

(** The entries in the order their rows are written, lines 150-152. *)
Definition rowOrder (dirs renderFiles lolwuts : list Entry) : list Entry :=
  (JsArray.sort byName dirs ++ JsArray.sort byToString renderFiles
     ++ JsArray.sort byName lolwuts)%list.

(** The closing of the page, lines 154-171.  [host.endsWith] on a missing
    header throws a TypeError. *)
Definition pageFoot (req : Request) : Completion string :=
  match host req with
  | None => Threw (TypeError "Cannot read properties of undefined (reading 'endsWith')")
  | Some h =>
      Returned
        ("</table>" ++ nl ++ "</div>" ++ nl
         ++ (if JsString.endsWith h "you.rocks" then
               "<br><address> Server deployed with <span class="
                 ++ q "eceheart" ++ ">&hearts;</span> for YOU'21 at"
                 ++ " " ++ he_encode h ++ "</address>" ++ nl
                 ++ "</body></html>" ++ nl
             else
               "<br><address>Node.js server " ++ "running @ "
                 ++ he_encode h ++ "</address>" ++ nl
                 ++ "</body></html>" ++ nl))
  end.

(** The text of the page, or the exception that stops [render] before it
    writes, lines 79-171. *)
Definition renderHtml (req : Request) (opts : Options) (decoded : string)
    (dirs renderFiles lolwuts : list Entry) (parent : string)
  : Completion string :=
  match forEachRow req opts parent (JsArray.sort byName dirs)
          (pageHead decoded) with
  | Threw e => Threw e
  | Returned h1 =>
      match forEachRow req opts parent
              (JsArray.sort byToString renderFiles) h1 with
      | Threw e => Threw e
      | Returned h2 =>
          match forEachRow req opts parent
                  (JsArray.sort byName lolwuts) h2 with
          | Threw e => Threw e
          | Returned h3 =>
              match pageFoot req with
              | Threw e => Threw e
              | Returned foot => Returned (h3 ++ foot)
              end
          end
      end
  end.

(** [render], lines 76-177. *)
Definition render (req : Request) (opts : Options) (decoded : string)
    (dirs renderFiles lolwuts : list Entry) (parent : string) : M unit :=
  html <- lift (renderHtml req opts decoded dirs renderFiles lolwuts parent) ;;
  emit (WriteHead 200 "Content-Type" "text/html") ;;;
  emit (EndBody html).

(** The test of line 189. *)
Definition parentInRoot (opts : Options) (dir : string) : bool :=
  let r := resolvedRoot opts in
  String.eqb (JsString.slice0 (String.length r) (Path.resolve cwd [dir; ".."]))
             r.

(** The [dirs] bucket handed to [render], lines 189-204, or the error of
    the parent stat. *)
Definition withParent (opts : Options) (dir : string) (dirs : list Entry)
  : Errno + list Entry :=
  if parentInRoot opts dir then
    match stat fs (Path.join [dir; ".."]) with
    | inl err => inl err
    | inr s => inr ((("..", Some s) : Entry) :: dirs)
    end
  else inr dirs.

(** The callback given to [sortFiles], lines 179-205.  The stat of the
    parent, when it is made, throws at once on a path that is not
    accepted. *)
Definition afterSort (req : Request) (opts : Options) (decoded dir : string)
    (buckets : list Entry * list Entry * list Entry) : M unit :=
  let '(lolwuts, dirs, sortedFiles) := buckets in
  if parentInRoot opts dir && negb (validPath (Path.join [dir; ".."])) then
    throw (TypeError invalidArg)
  else
    match withParent opts dir dirs with
    | inl err => fail opts err
    | inr dirs' => render req opts decoded dirs' sortedFiles lolwuts dir
    end.

(** [middleware], lines 29-208. *)
Definition middleware (opts : Options) (req : Request) : M unit :=
  match decodeURIComponent (pathname req) with
  | None => throw URIError
  | Some decoded =>
      let dir := targetDir opts decoded in
      asyncCall dir (stat fs dir) (fun statResult =>
        match statResult with
        | inl statErr => fail opts statErr
        | inr st =>
            asyncCall dir (readdir fs dir) (fun readResult =>
              match readResult with
              | inl readErr => fail opts readErr
              | inr _files =>
                  let files := filterDotfiles opts _files in
                  emit (SetHeader "content-type" "text/html") ;;;
                  emit (SetHeader "etag" (etag st (weakEtags opts))) ;;;
                  emit (SetHeader "last-modified"
                          (toUTCString (mtime st))) ;;;
                  emit (SetHeader "cache-control" (cache opts)) ;;;
                  afterSort req opts decoded dir (sortFiles dir files)
              end)
        end)
  end.

(** A path segment that [normalizeString] keeps as it is: not empty, not
    a dot segment, without a separator. *)
Definition cleanSeg (s : string) : Prop :=
  s <> "" /\ s <> "." /\ s <> ".." /\ JsString.mem "/" s = false.

Definition isSetHeader (e : Event) : bool :=
  match e with SetHeader _ _ => true | _ => false end.

(** The text [writeRow] appends for an entry, empty when it throws. *)
Definition rowText (req : Request) (opts : Options) (parent : string)
    (file : Entry) : string :=
  match rowOf req opts parent file with
  | Returned r => rowHtml r
  | Threw _ => EmptyString
  end.

Fixpoint rowsText (req : Request) (opts : Options) (parent : string)
    (files : list Entry) : string :=
  match files with
  | [] => EmptyString
  | file :: rest => rowText req opts parent file ++ rowsText req opts parent rest
  end.

(** An entry whose row can be written: a directory, a name without the
    [.url] suffix, or a shortcut whose content can be read. *)
Definition rowWritable (parent : string) (file : Entry) : Prop :=
  isDir file = false ->
  JsString.endsWith (fst file) ".url" = true ->
  exists content,
    readFileSync fs (Path.resolve cwd [parent; fst file]) = inr content.

(** The four headers of lines 71-74. *)
Definition listingHeaders (opts : Options) (st : Stats) : list Event :=
  [SetHeader "content-type" "text/html";
   SetHeader "etag" (etag st (weakEtags opts));
   SetHeader "last-modified" (toUTCString (mtime st));
   SetHeader "cache-control" (cache opts)].

(** The call of the error branch. *)
Definition errorCall (opts : Options) (err : Errno) : Event :=
  if handleError opts then Status500 err else Next.

(** Ascending for a comparator: no element sorts after its successor. *)
Definition ascending {A} (cmp : A -> A -> Z) (l : list A) : Prop :=
  Sorted (fun a b => cmp a b <= 0) l.

(** Settles which side of the digits a given code unit lies on. *)
Ltac outside_digits := first [left; cbv; lia | right; cbv; lia].

(* ================================================================== *)
(** ** Facts about the string built-ins *)

Lemma str_length_app (a b : string) :
  String.length (a ++ b) = (String.length a + String.length b)%nat.
Proof. induction a as [|c a IH]; simpl; [reflexivity | now rewrite IH]. Qed.

Lemma substring_0_length (b : string) :
  substring 0 (String.length b) b = b.
Proof. induction b as [|c b IH]; simpl; [reflexivity | now rewrite IH]. Qed.

Lemma substring_0_app (a b : string) :
  substring 0 (String.length a) (a ++ b) = a.
Proof. induction a as [|c a IH]; simpl; [now destruct b | now rewrite IH]. Qed.

Lemma substring_skip_app (a b : string) (m : nat) :
  substring (String.length a) m (a ++ b) = substring 0 m b.
Proof. induction a as [|c a IH]; simpl; [reflexivity | exact IH]. Qed.

Lemma substring_cut (n : nat) : forall s : string,
  (n <= String.length s)%nat ->
  s = substring 0 n s ++ substring n (String.length s - n) s.
Proof.
  induction n as [|n IH]; intros s Hn.
  - rewrite Nat.sub_0_r, substring_0_length. now destruct s.
  - destruct s as [|c s]; simpl in Hn; [lia|].
    simpl. f_equal. apply IH. lia.
Qed.

Lemma endsWith_app (base suffix : string) :
  JsString.endsWith (base ++ suffix) suffix = true.
Proof.
  unfold JsString.endsWith. rewrite str_length_app.
  replace (String.length base + String.length suffix - String.length suffix)%nat
    with (String.length base) by lia.
  rewrite substring_skip_app, substring_0_length, String.eqb_refl.
  rewrite andb_true_r. apply Nat.leb_le. lia.
Qed.

Lemma endsWith_inv (s suffix : string) :
  JsString.endsWith s suffix = true ->
  s = JsString.substring0 (String.length s - String.length suffix) s ++ suffix.
Proof.
  unfold JsString.endsWith, JsString.substring0. intros H.
  apply andb_true_iff in H as [Hle Heq].
  apply Nat.leb_le in Hle. apply String.eqb_eq in Heq.
  pose proof (substring_cut (String.length s - String.length suffix) s) as Hc.
  replace (String.length s - (String.length s - String.length suffix))%nat
    with (String.length suffix) in Hc by lia.
  rewrite Heq in Hc. apply Hc. lia.
Qed.

Lemma split_nonempty (c : ascii) (s : string) : JsString.split c s <> [].
Proof.
  destruct s as [|a s]; simpl; [discriminate|].
  destruct (Ascii.eqb a c); [discriminate|].
  destruct (JsString.split c s); discriminate.
Qed.

Lemma split_absent (c : ascii) (s : string) :
  JsString.mem c s = false -> JsString.split c s = [s].
Proof.
  induction s as [|a s IH]; simpl; intros H; [reflexivity|].
  apply orb_false_iff in H as [Ha Hs].
  rewrite Ha, (IH Hs). reflexivity.
Qed.

Lemma split_app_sep (c : ascii) (p t : string) :
  JsString.split c (p ++ String c t)
  = (JsString.split c p ++ JsString.split c t)%list.
Proof.
  induction p as [|a p IH]; simpl.
  - now rewrite Ascii.eqb_refl.
  - destruct (Ascii.eqb a c); [now rewrite IH|].
    rewrite IH. pose proof (split_nonempty c p) as Hne.
    destruct (JsString.split c p); [contradiction | reflexivity].
Qed.

Lemma last_app_nonempty {A} (l1 l2 : list A) (d : A) :
  l2 <> [] -> last (l1 ++ l2) d = last l2 d.
Proof.
  intros Hne. induction l1 as [|x l1 IH]; simpl; [reflexivity|].
  rewrite IH. destruct (l1 ++ l2)%list eqn:E; [|reflexivity].
  apply app_eq_nil in E as [_ E]. contradiction.
Qed.

Lemma pop_split_after_last (c : ascii) (p t : string) :
  JsString.mem c t = false ->
  JsString.pop (JsString.split c (p ++ String c t)) = t.
Proof.
  intros H. unfold JsString.pop.
  rewrite split_app_sep, last_app_nonempty by apply split_nonempty.
  now rewrite (split_absent _ _ H).
Qed.

Lemma hd_split_before_first (c : ascii) (a b : string) :
  JsString.mem c a = false ->
  hd EmptyString (JsString.split c (a ++ String c b)) = a.
Proof.
  intros H. now rewrite split_app_sep, (split_absent _ _ H).
Qed.

Lemma replace_first_char (c : ascii) (rep a b : string) :
  JsString.mem c a = false ->
  JsString.replace (String c EmptyString) rep (a ++ String c b)
  = a ++ rep ++ b.
Proof.
  induction a as [|x a IH]; simpl; intros H.
  - destruct (ascii_dec c c) as [_|n]; [|now elim n].
    now destruct b.
  - apply orb_false_iff in H as [Hx Ha].
    destruct (ascii_dec c x) as [e|_].
    + subst x. now rewrite Ascii.eqb_refl in Hx.
    + now rewrite (IH Ha).
Qed.

Lemma mem_app (c : ascii) (a b : string) :
  JsString.mem c (a ++ b) = JsString.mem c a || JsString.mem c b.
Proof.
  induction a as [|x a IH]; simpl; [reflexivity|].
  now rewrite IH, orb_assoc.
Qed.

Lemma slice_first_is_prefix (p s : string) :
  String.eqb (JsString.slice0 (String.length p) s) p = JsString.startsWith s p.
Proof.
  unfold JsString.slice0, JsString.startsWith.
  revert s. induction p as [|a p IH]; intros s; simpl.
  - now destruct s.
  - destruct s as [|b s]; simpl; [reflexivity|].
    destruct (ascii_dec a b) as [e|n].
    + subst b. rewrite Ascii.eqb_refl. apply IH.
    + destruct (Ascii.eqb b a) eqn:E; [|reflexivity].
      apply Ascii.eqb_eq in E. now elim n.
Qed.

Lemma str_app_assoc (a b c : string) : (a ++ b) ++ c = a ++ (b ++ c).
Proof. induction a as [|x a IH]; simpl; [reflexivity | now rewrite IH]. Qed.

(* ================================================================== *)
(** ** Facts about the ISO format *)

Lemma digit_code (n : Z) :
  (48 <= nat_of_ascii (JsDate.digit n) <= 57)%nat.
Proof.
  unfold JsDate.digit.
  assert (H : 0 <= n mod 10 < 10) by (apply Z.mod_pos_bound; lia).
  rewrite nat_ascii_embedding by lia. lia.
Qed.

Lemma mem_pad (c : ascii) (w : nat) : forall n : Z,
  (nat_of_ascii c < 48 \/ 57 < nat_of_ascii c)%nat ->
  JsString.mem c (JsDate.pad w n) = false.
Proof.
  induction w as [|w IH]; intros n Hc; simpl; [reflexivity|].
  rewrite mem_app, (IH _ Hc). cbn [JsString.mem orb]. rewrite orb_false_r.
  destruct (Ascii.eqb (JsDate.digit n) c) eqn:E; [|reflexivity].
  apply Ascii.eqb_eq in E. pose proof (digit_code n) as Hd.
  rewrite E in Hd. lia.
Qed.

Lemma eqb_neq_false (a c : ascii) : a <> c -> Ascii.eqb a c = false.
Proof.
  intros H. destruct (Ascii.eqb a c) eqn:E; [|reflexivity].
  apply Ascii.eqb_eq in E. contradiction.
Qed.

Lemma mem_isoDate (c : ascii) (t : Z) :
  (nat_of_ascii c < 48 \/ 57 < nat_of_ascii c)%nat ->
  "-"%char <> c -> "+"%char <> c ->
  JsString.mem c (JsDate.isoDate t) = false.
Proof.
  intros Hc Hm Hpl.
  assert (Hp : forall w n, JsString.mem c (JsDate.pad w n) = false)
    by (intros; now apply mem_pad).
  apply eqb_neq_false in Hm, Hpl.
  unfold JsDate.isoDate. destruct (JsDate.civil _) as [[y m] d].
  assert (Hy : JsString.mem c (JsDate.isoYear y) = false).
  { unfold JsDate.isoYear. destruct (_ && _); [apply Hp|].
    rewrite mem_app, Hp, orb_false_r.
    destruct (y <? 0); cbn [JsString.mem];
      [now rewrite Hm | now rewrite Hpl]. }
  repeat (rewrite mem_app; cbn [JsString.mem append]).
  now rewrite Hy, !Hp, Hm.
Qed.

Lemma mem_isoTime (c : ascii) (t : Z) :
  (nat_of_ascii c < 48 \/ 57 < nat_of_ascii c)%nat ->
  ":"%char <> c ->
  JsString.mem c (JsDate.isoTime t) = false.
Proof.
  intros Hc Hcolon.
  assert (Hp : forall w n, JsString.mem c (JsDate.pad w n) = false)
    by (intros; now apply mem_pad).
  apply eqb_neq_false in Hcolon.
  unfold JsDate.isoTime.
  repeat (rewrite mem_app; cbn [JsString.mem append]).
  now rewrite !Hp, Hcolon.
Qed.

Lemma toISOString_shape (tv : JsDate.TimeValue) (iso : string) :
  JsDate.toISOString tv = Some iso ->
  exists t, tv = Some t /\ JsDate.validTime t = true
    /\ iso = JsDate.isoDate t ++ "T" ++ JsDate.isoTime t ++ "."
               ++ JsDate.isoMillis t ++ "Z".
Proof.
  destruct tv as [t|]; unfold JsDate.toISOString; [|discriminate].
  destruct (JsDate.validTime t) eqn:V; [|discriminate].
  intros [= <-]. now exists t.
Qed.

(** On a valid Date the conversion keeps the date and the clock of the
    ISO string, joined by a space. *)
Lemma convertDateTime_valid (t : Z) :
  JsDate.validTime t = true ->
  convertDateTime (MDate (Some t))
  = JsDate.isoDate t ++ " " ++ JsDate.isoTime t.
Proof.
  intros V. unfold convertDateTime, JsDate.toISOString. rewrite V.
  assert (HdT : JsString.mem "T" (JsDate.isoDate t) = false)
    by (apply mem_isoDate; [outside_digits | discriminate | discriminate]).
  assert (Hdot : JsString.mem "."
                   (JsDate.isoDate t ++ "T" ++ JsDate.isoTime t) = false).
  { rewrite mem_app. cbn [JsString.mem append].
    rewrite mem_isoDate; [|outside_digits | discriminate | discriminate].
    rewrite mem_isoTime; [reflexivity | outside_digits | discriminate]. }
  replace (JsDate.isoDate t ++ "T" ++ JsDate.isoTime t ++ "."
             ++ JsDate.isoMillis t ++ "Z")
    with ((JsDate.isoDate t ++ "T" ++ JsDate.isoTime t)
            ++ String "." (JsDate.isoMillis t ++ "Z")).
  2:{ rewrite str_app_assoc. reflexivity. }
  rewrite (hd_split_before_first _ _ _ Hdot).
  change (JsDate.isoDate t ++ "T" ++ JsDate.isoTime t)
    with (JsDate.isoDate t ++ String "T" (JsDate.isoTime t)).
  now rewrite (replace_first_char _ _ _ _ HdT).
Qed.

Lemma convertDateTime_invalid (tv : JsDate.TimeValue) :
  JsDate.toISOString tv = None ->
  convertDateTime (MDate tv) = noDatePlaceholder.
Proof. intros H. unfold convertDateTime. now rewrite H. Qed.

(* ================================================================== *)
(** ** Facts about the sort *)

Lemma insert_perm {A} (cmp : A -> A -> Z) (x : A) (l : list A) :
  Permutation (x :: l) (JsArray.insert cmp x l).
Proof.
  induction l as [|y l IH]; simpl; [apply Permutation_refl|].
  destruct (cmp x y <=? 0); [apply Permutation_refl|].
  eapply perm_trans; [apply perm_swap|]. now apply perm_skip.
Qed.

Lemma sort_perm {A} (cmp : A -> A -> Z) (l : list A) :
  Permutation l (JsArray.sort cmp l).
Proof.
  induction l as [|x l IH]; simpl; [constructor|].
  eapply perm_trans; [apply perm_skip, IH | apply insert_perm].
Qed.

Lemma sort_In {A} (cmp : A -> A -> Z) (l : list A) (x : A) :
  In x (JsArray.sort cmp l) <-> In x l.
Proof.
  split; apply Permutation_in;
    [apply Permutation_sym|]; apply sort_perm.
Qed.

Section Ordered.
Context {A : Type} (cmp : A -> A -> Z).
Hypothesis cmp_total : forall a b, cmp a b <= 0 \/ cmp b a <= 0.

Lemma insert_ascending (x : A) (l : list A) :
  ascending cmp l -> ascending cmp (JsArray.insert cmp x l).
Proof.
  unfold ascending. induction l as [|y l IH]; simpl; intros Hl.
  - repeat constructor.
  - destruct (cmp x y <=? 0) eqn:E.
    + apply Z.leb_le in E. constructor; [assumption | now constructor].
    + apply Z.leb_gt in E.
      inversion Hl as [|? ? Hs Hh]; subst.
      constructor; [now apply IH|].
      destruct l as [|z l]; simpl.
      * constructor. destruct (cmp_total x y); lia.
      * destruct (cmp x z <=? 0).
        -- constructor. destruct (cmp_total x y); lia.
        -- inversion Hh; subst. now constructor.
Qed.

Lemma sort_ascending (l : list A) : ascending cmp (JsArray.sort cmp l).
Proof.
  induction l as [|x l IH]; simpl; [constructor|].
  now apply insert_ascending.
Qed.

End Ordered.

(* ================================================================== *)
(** ** Facts about rows and the page *)

Lemma rowOf_threw (req : Request) (opts : Options) (parent : string)
    (file : Entry) (e : Exn) :
  rowOf req opts parent file = Threw e ->
  exists err,
    e = FsError err
    /\ isDir file = false
    /\ JsString.endsWith (fst file) ".url" = true
    /\ readFileSync fs (Path.resolve cwd [parent; fst file]) = inl err.
Proof.
  unfold rowOf.
  destruct (negb (isDir file) && JsString.endsWith (fst file) ".url") eqn:U;
    [|discriminate].
  apply andb_true_iff in U as [Hd Hu]. apply negb_true_iff in Hd.
  destruct (readFileSync fs _) as [err|content] eqn:R; [|discriminate].
  intros [= <-]. now exists err.
Qed.

Lemma rowOf_unreadable (req : Request) (opts : Options) (parent : string)
    (file : Entry) (err : Errno) :
  isDir file = false ->
  JsString.endsWith (fst file) ".url" = true ->
  readFileSync fs (Path.resolve cwd [parent; fst file]) = inl err ->
  rowOf req opts parent file = Threw (FsError err).
Proof.
  intros Hd Hu Hr. unfold rowOf. now rewrite Hd, Hu, Hr.
Qed.

Lemma forEachRow_app (req : Request) (opts : Options) (parent : string)
    (l1 l2 : list Entry) : forall html,
  forEachRow req opts parent (l1 ++ l2)%list html
  = match forEachRow req opts parent l1 html with
    | Returned h => forEachRow req opts parent l2 h
    | Threw e => Threw e
    end.
Proof.
  induction l1 as [|f l1 IH]; intros html; simpl; [reflexivity|].
  destruct (writeRow req opts parent html f); [apply IH | reflexivity].
Qed.

Lemma forEachRow_threw (req : Request) (opts : Options) (parent : string)
    (l : list Entry) : forall html e,
  forEachRow req opts parent l html = Threw e ->
  exists err, e = FsError err.
Proof.
  induction l as [|f l IH]; intros html e; simpl; [discriminate|].
  unfold writeRow.
  destruct (rowOf req opts parent f) as [r|e'] eqn:R.
  - apply IH.
  - intros [= <-]. apply rowOf_threw in R as (err & -> & _). now exists err.
Qed.

Lemma forEachRow_unreadable (req : Request) (opts : Options)
    (parent : string) (l : list Entry) (file : Entry) (err : Errno) :
  In file l ->
  rowOf req opts parent file = Threw (FsError err) ->
  forall html, exists err',
    forEachRow req opts parent l html = Threw (FsError err').
Proof.
  intros Hin Hrow. induction l as [|f l IH]; [contradiction|].
  intros html. simpl. unfold writeRow.
  destruct Hin as [->|Hin].
  - rewrite Hrow. now exists err.
  - destruct (rowOf req opts parent f) as [r|e] eqn:R.
    + now apply IH.
    + apply rowOf_threw in R as (err' & -> & _). now exists err'.
Qed.

(** The rows are written in [rowOrder]. *)
Lemma renderHtml_rowOrder (req : Request) (opts : Options) (decoded : string)
    (dirs renderFiles lolwuts : list Entry) (parent : string) :
  renderHtml req opts decoded dirs renderFiles lolwuts parent
  = match forEachRow req opts parent (rowOrder dirs renderFiles lolwuts)
            (pageHead decoded) with
    | Threw e => Threw e
    | Returned rows =>
        match pageFoot req with
        | Threw e => Threw e
        | Returned foot => Returned (rows ++ foot)
        end
    end.
Proof.
  unfold renderHtml, rowOrder. rewrite forEachRow_app.
  destruct (forEachRow req opts parent _ (pageHead decoded)) as [h1|];
    [|reflexivity].
  rewrite forEachRow_app.
  destruct (forEachRow req opts parent _ h1); reflexivity.
Qed.

Lemma render_threw (req : Request) (opts : Options) (decoded : string)
    (dirs renderFiles lolwuts : list Entry) (parent : string) (e : Exn) :
  renderHtml req opts decoded dirs renderFiles lolwuts parent = Threw e ->
  render req opts decoded dirs renderFiles lolwuts parent = ([], Threw e).
Proof. intros H. unfold render. now rewrite H. Qed.

Lemma render_returned (req : Request) (opts : Options) (decoded : string)
    (dirs renderFiles lolwuts : list Entry) (parent html : string) :
  renderHtml req opts decoded dirs renderFiles lolwuts parent = Returned html ->
  render req opts decoded dirs renderFiles lolwuts parent
  = ([WriteHead 200 "Content-Type" "text/html"; EndBody html], Returned tt).
Proof. intros H. unfold render. now rewrite H. Qed.

(* ================================================================== *)
(** ** Facts about accepted paths *)

Lemma stat_returned_valid (p : string) (st : Stats) :
  stat fs p = inr st -> validPath p = true.
Proof. unfold stat. now destruct (validPath p). Qed.

Lemma split_piece_mem (c sep : ascii) (s x : string) :
  In x (JsString.split sep s) -> JsString.mem c x = true ->
  JsString.mem c s = true.
Proof.
  revert x. induction s as [|a s IH]; cbn [JsString.split]; intros x Hin Hx.
  - destruct Hin as [<-|[]]. discriminate.
  - cbn [JsString.mem]. destruct (Ascii.eqb a sep).
    + destruct Hin as [<-|Hin]; [discriminate|].
      rewrite (IH _ Hin Hx). apply orb_true_r.
    + destruct (JsString.split sep s) as [|p ps] eqn:Es.
      * destruct Hin as [<-|[]]. cbn [JsString.mem] in Hx.
        rewrite orb_false_r in Hx. now rewrite Hx.
      * destruct Hin as [<-|Hin].
        -- cbn [JsString.mem] in Hx. apply orb_true_iff in Hx as [->|Hx];
             [reflexivity|].
           rewrite (IH p (or_introl eq_refl) Hx). apply orb_true_r.
        -- rewrite (IH x (or_intror Hin) Hx). apply orb_true_r.
Qed.

Lemma join_mem (c : ascii) (sep : string) (segs : list string) :
  JsString.mem c (JsString.join sep segs) = true ->
  JsString.mem c sep = true
  \/ exists x, In x segs /\ JsString.mem c x = true.
Proof.
  unfold JsString.join. induction segs as [|x segs IH]; [discriminate|].
  destruct segs as [|y segs].
  - cbn [String.concat]. intros H. right. exists x. split; [now left | exact H].
  - change (String.concat sep (x :: y :: segs))
      with (x ++ sep ++ String.concat sep (y :: segs)).
    rewrite !mem_app. intros H.
    apply orb_true_iff in H as [H|H];
      [right; exists x; split; [now left | exact H]|].
    apply orb_true_iff in H as [H|H]; [now left|].
    destruct (IH H) as [Hs|(z & Hz & Hm)]; [now left|].
    right. exists z. split; [now right | exact Hm].
Qed.

Lemma normalizeSegs_from (allow : bool) (segs : list string) :
  forall acc x,
  In x (Path.normalizeSegs allow acc segs) ->
  In x acc \/ In x segs \/ x = "..".
Proof.
  induction segs as [|seg rest IH]; intros acc x; cbn [Path.normalizeSegs].
  - intros H. left. now apply in_rev.
  - assert (Hstep : forall acc',
               (forall y, In y acc' -> In y acc \/ y = seg \/ y = "..") ->
               In x (Path.normalizeSegs allow acc' rest) ->
               In x acc \/ In x (seg :: rest) \/ x = "..").
    { intros acc' Hacc H. destruct (IH _ _ H) as [H1|[H1|H1]].
      - destruct (Hacc _ H1) as [H2|[H2|H2]];
          [now left | right; left; now left | now right; right].
      - right. left. now right.
      - now right; right. }
    destruct (String.eqb seg "" || String.eqb seg ".");
      [apply Hstep; now left|].
    destruct (String.eqb seg "..").
    + destruct acc as [|top acc'].
      * apply Hstep. intros y Hy. destruct allow; [|contradiction].
        destruct Hy as [<-|[]]. now right; right.
      * destruct (String.eqb top "..").
        -- apply Hstep. intros y Hy. destruct allow; [|now left].
           destruct Hy as [<-|Hy]; [now right; right | now left].
        -- apply Hstep. intros y Hy. left. now right.
    + apply Hstep. intros y [<-|Hy]; [right; now left | now left].
Qed.

Lemma normalizeString_mem (c : ascii) (p : string) (allow : bool) :
  JsString.mem c (Path.normalizeString p allow) = true ->
  c = "/"%char \/ c = "."%char \/ JsString.mem c p = true.
Proof.
  unfold Path.normalizeString. intros H.
  apply join_mem in H as [H|(x & Hx & Hm)].
  - left. cbn [JsString.mem] in H. rewrite orb_false_r in H.
    symmetry. now apply Ascii.eqb_eq.
  - apply normalizeSegs_from in Hx as [Hx | [Hx | ->]]; [contradiction| |].
    + right. right. exact (split_piece_mem _ _ _ _ Hx Hm).
    + right. left. cbn [JsString.mem] in Hm.
      rewrite orb_false_r, orb_diag in Hm. symmetry. now apply Ascii.eqb_eq.
Qed.

Lemma normalize_mem (c : ascii) (p : string) :
  JsString.mem c (Path.normalize p) = true ->
  c = "/"%char \/ c = "."%char \/ JsString.mem c p = true.
Proof.
  assert (Hone : forall d : ascii,
             JsString.mem c (String d "") = true -> c = d).
  { intros d H. cbn [JsString.mem] in H. rewrite orb_false_r in H.
    symmetry. now apply Ascii.eqb_eq. }
  assert (Hslash : forall t, JsString.mem c ("/" ++ t) = true ->
                             c = "/"%char \/ JsString.mem c t = true).
  { intros t H. rewrite mem_app in H.
    apply orb_true_iff in H as [H|H]; [left; now apply Hone | now right]. }
  assert (Htail : forall t, JsString.mem c (t ++ "/") = true ->
                            c = "/"%char \/ JsString.mem c t = true).
  { intros t H. rewrite mem_app in H.
    apply orb_true_iff in H as [H|H]; [now right | left; now apply Hone]. }
  unfold Path.normalize.
  destruct (String.eqb p ""); [intros H; right; left; now apply Hone|].
  cbv zeta.
  destruct (String.eqb (Path.normalizeString p (negb (Path.isAbsolute p))) "").
  - destruct (Path.isAbsolute p); [intros H; left; now apply Hone|].
    destruct (JsString.endsWith p "/"); intros H.
    + change "./" with ("." ++ "/") in H.
      apply Htail in H as [H|H]; [now left | right; left; now apply Hone].
    + right. left. now apply Hone.
  - intros H.
    assert (Hn : c = "/"%char
                 \/ JsString.mem c
                      (Path.normalizeString p (negb (Path.isAbsolute p)))
                    = true).
    { destruct (Path.isAbsolute p); destruct (JsString.endsWith p "/").
      - apply Hslash in H as [H|H]; [now left|].
        apply Htail in H as [H|H]; [now left | now right].
      - apply Hslash in H as [H|H]; [now left | now right].
      - apply Htail in H as [H|H]; [now left | now right].
      - now right. }
    destruct Hn as [Hn|Hn]; [now left|].
    now apply normalizeString_mem in Hn.
Qed.

(** The parent of an accepted path is accepted. *)
Lemma parent_path_valid (dir : string) :
  validPath dir = true -> validPath (Path.join [dir; ".."]) = true.
Proof.
  unfold validPath. intros H. apply negb_true_iff in H.
  apply negb_true_iff.
  destruct (JsString.mem Ascii.zero (Path.join [dir; ".."])) eqn:E;
    [|reflexivity].
  exfalso. unfold Path.join in E. cbn [filter] in E.
  destruct (String.eqb dir "") eqn:Ed; cbn [negb] in E;
    change (negb (String.eqb ".." "")) with true in E; cbv iota in E;
    apply normalize_mem in E as [E|[E|E]]; try discriminate.
  change (JsString.join "/" [dir; ".."]) with (dir ++ "/..") in E.
  rewrite mem_app, H in E. discriminate.
Qed.

(** On an accepted directory the callback of [sortFiles] settles the
    parent entry and then renders, or makes the error call. *)
Lemma afterSort_valid (req : Request) (opts : Options)
    (decoded dir : string) (lolwuts dirs files : list Entry) :
  validPath dir = true ->
  afterSort req opts decoded dir (lolwuts, dirs, files)
  = match withParent opts dir dirs with
    | inl err => fail opts err
    | inr dirs' => render req opts decoded dirs' files lolwuts dir
    end.
Proof.
  intros H. unfold afterSort.
  now rewrite (parent_path_valid _ H), andb_false_r.
Qed.

(* ================================================================== *)
(** ** Facts about the pipeline *)

Lemma fail_trace (opts : Options) (err : Errno) :
  fail opts err = ([errorCall opts err], Returned tt).
Proof. unfold fail, errorCall. now destruct (handleError opts). Qed.

(** A target that [fs.stat] does not accept: the call throws in the
    middleware, and nothing else happens. *)
Lemma middleware_invalid_path (opts : Options) (req : Request)
    (decoded : string) :
  decodeURIComponent (pathname req) = Some decoded ->
  validPath (targetDir opts decoded) = false ->
  middleware opts req = ([], Threw (TypeError invalidArg)).
Proof.
  intros Hd Hv. unfold middleware, asyncCall. now rewrite Hd, Hv.
Qed.

Lemma middleware_stat_failed (opts : Options) (req : Request)
    (decoded : string) (err : Errno) :
  decodeURIComponent (pathname req) = Some decoded ->
  validPath (targetDir opts decoded) = true ->
  stat fs (targetDir opts decoded) = inl err ->
  middleware opts req = ([errorCall opts err], Returned tt).
Proof.
  intros Hd Hv Hs. unfold middleware, asyncCall. rewrite Hd, Hv, Hs.
  apply fail_trace.
Qed.

Lemma middleware_readdir_failed (opts : Options) (req : Request)
    (decoded : string) (st : Stats) (err : Errno) :
  decodeURIComponent (pathname req) = Some decoded ->
  stat fs (targetDir opts decoded) = inr st ->
  readdir fs (targetDir opts decoded) = inl err ->
  middleware opts req = ([errorCall opts err], Returned tt).
Proof.
  intros Hd Hs Hr. unfold middleware, asyncCall.
  rewrite Hd, (stat_returned_valid _ _ Hs), Hs, Hr. apply fail_trace.
Qed.

(** Once the directory is read the headers are set and the classified
    buckets go to [afterSort]. *)
Lemma middleware_listing (opts : Options) (req : Request)
    (decoded : string) (st : Stats) (names : list string) :
  decodeURIComponent (pathname req) = Some decoded ->
  stat fs (targetDir opts decoded) = inr st ->
  readdir fs (targetDir opts decoded) = inr names ->
  middleware opts req
  = let '(t, c) :=
      afterSort req opts decoded (targetDir opts decoded)
        (sortFiles (targetDir opts decoded) (filterDotfiles opts names)) in
    ((listingHeaders opts st ++ t)%list, c).
Proof.
  intros Hd Hs Hr. unfold middleware, asyncCall.
  rewrite Hd, (stat_returned_valid _ _ Hs), Hs, Hr.
  unfold bind, emit. cbn [app].
  destruct (afterSort _ _ _ _ _) as [t c]. reflexivity.
Qed.

Lemma afterSort_parent_failed (opts : Options) (req : Request)
    (decoded dir : string) (buckets : list Entry * list Entry * list Entry)
    (err : Errno) :
  validPath dir = true ->
  parentInRoot opts dir = true ->
  stat fs (Path.join [dir; ".."]) = inl err ->
  afterSort req opts decoded dir buckets = ([errorCall opts err], Returned tt).
Proof.
  intros Hv Hp Hs. destruct buckets as [[lolwuts dirs] files].
  rewrite (afterSort_valid _ _ _ _ _ _ _ Hv).
  unfold withParent. rewrite Hp, Hs. apply fail_trace.
Qed.

Lemma count_app (p : Event -> bool) (a b : list Event) :
  count p (a ++ b)%list = (count p a + count p b)%nat.
Proof. unfold count. now rewrite filter_app, List.length_app. Qed.

Lemma listingHeaders_quiet (opts : Options) (st : Stats) :
  count isErrorCall (listingHeaders opts st) = 0%nat
  /\ count isWriteHead (listingHeaders opts st) = 0%nat
  /\ count isEndBody (listingHeaders opts st) = 0%nat.
Proof. repeat split. Qed.

Lemma errorCall_counts (opts : Options) (err : Errno) :
  count isErrorCall [errorCall opts err] = 1%nat
  /\ count isWriteHead [errorCall opts err] = 0%nat
  /\ count isEndBody [errorCall opts err] = 0%nat.
Proof. unfold errorCall. destruct (handleError opts); repeat split. Qed.

(** Every name handed to the classification lands in exactly one
    bucket. *)
Lemma sortFiles_partition (dir : string) (names : list string) :
  let '(unknowns, dirs, files) := sortFiles dir names in
  Permutation (map fst (unknowns ++ dirs ++ files)%list) names.
Proof.
  induction names as [|name rest IH]; cbn [sortFiles]; [constructor|].
  destruct (sortFiles dir rest) as [[unknowns dirs] files].
  destruct (stat fs _) as [err|s]; [|destruct (isDirectory s)].
  - cbn. now constructor.
  - rewrite !map_app in *. cbn [map fst].
    eapply perm_trans; [apply Permutation_sym, Permutation_middle|].
    now constructor.
  - rewrite !map_app in *. cbn [map fst]. rewrite app_assoc.
    eapply perm_trans; [apply Permutation_sym, Permutation_middle|].
    constructor. now rewrite <- app_assoc.
Qed.

(** X1: what a request can come to: one response, one error call, or an
    exception with nothing written and no error call. *)
Lemma request_outcome_cases (opts : Options) (req : Request) :
  (successOutcome (trace (middleware opts req))
   /\ completion (middleware opts req) = Returned tt)
  \/ (errorOutcome (trace (middleware opts req))
      /\ completion (middleware opts req) = Returned tt)
  \/ (noOutcome (trace (middleware opts req))
      /\ exists e, completion (middleware opts req) = Threw e).
Proof.
  destruct (decodeURIComponent (pathname req)) as [decoded|] eqn:Hd.
  2:{ right. right. unfold middleware. rewrite Hd.
      split; [now repeat split | now eexists]. }
  destruct (validPath (targetDir opts decoded)) eqn:Hv.
  2:{ right. right. rewrite (middleware_invalid_path _ _ _ Hd Hv).
      split; [now repeat split | now eexists]. }
  destruct (stat fs (targetDir opts decoded)) as [err|st] eqn:Hs.
  { right. left. rewrite (middleware_stat_failed _ _ _ _ Hd Hv Hs).
    split; [|reflexivity]. unfold errorOutcome, trace. cbn [fst].
    apply errorCall_counts. }
  destruct (readdir fs (targetDir opts decoded)) as [err|names] eqn:Hr.
  { right. left. rewrite (middleware_readdir_failed _ _ _ _ _ Hd Hs Hr).
    split; [|reflexivity]. unfold errorOutcome, trace. cbn [fst].
    apply errorCall_counts. }
  rewrite (middleware_listing _ _ _ _ _ Hd Hs Hr).
  destruct (sortFiles _ _) as [[lolwuts dirs] files].
  rewrite (afterSort_valid _ _ _ _ _ _ _ Hv).
  destruct (listingHeaders_quiet opts st) as (Q1 & Q2 & Q3).
  destruct (withParent opts (targetDir opts decoded) dirs) as [err|dirs'].
  - right. left. rewrite fail_trace. split; [|reflexivity].
    unfold errorOutcome, trace. cbn [fst]. rewrite !count_app, Q1, Q2, Q3.
    apply errorCall_counts.
  - destruct (renderHtml req opts decoded dirs' files lolwuts
                (targetDir opts decoded)) as [html|e] eqn:R.
    + left. rewrite (render_returned _ _ _ _ _ _ _ _ R).
      split; [|reflexivity]. unfold successOutcome, trace. cbn [fst].
      split.
      * exists (listingHeaders opts st), html. now repeat split.
      * now rewrite count_app, Q1.
    + right. right. rewrite (render_threw _ _ _ _ _ _ _ _ R).
      split; [|now eexists]. unfold noOutcome, trace. cbn [fst].
      rewrite app_nil_r. now repeat split.
Qed.

(* ================================================================== *)
(** ** The claims *)

(** C4, as amended: when the stat of the target directory, the read of
    the directory or the stat of the parent directory reports an error
    to its callback -- the stat of the target being made on a path that
    [fs.stat] accepts -- the request writes no head and no body: after at
    most the four headers already set it makes exactly one error call --
    the 500 status handler when errors are propagated, [next()]
    otherwise -- and ends there. *)
Theorem fatal_error_single_call (opts : Options) (req : Request)
    (decoded : string) (err : Errno) :
  decodeURIComponent (pathname req) = Some decoded ->
  ((validPath (targetDir opts decoded) = true
    /\ stat fs (targetDir opts decoded) = inl err)
   \/ (exists st,
         stat fs (targetDir opts decoded) = inr st
         /\ readdir fs (targetDir opts decoded) = inl err)
   \/ (exists st names,
         stat fs (targetDir opts decoded) = inr st
         /\ readdir fs (targetDir opts decoded) = inr names
         /\ parentInRoot opts (targetDir opts decoded) = true
         /\ stat fs (Path.join [targetDir opts decoded; ".."]) = inl err)) ->
  exists headers,
    (headers = [] \/ exists st, headers = listingHeaders opts st)
    /\ middleware opts req
       = ((headers ++ [if handleError opts then Status500 err else Next])%list,
          Returned tt)
    /\ errorOutcome (trace (middleware opts req)).
Proof.
  intros Hd Hcase.
  assert (Hout : forall headers,
             (headers = [] \/ exists st, headers = listingHeaders opts st) ->
             errorOutcome (headers ++ [errorCall opts err])%list).
  { intros headers Hh. unfold errorOutcome. rewrite !count_app.
    destruct (errorCall_counts opts err) as (-> & -> & ->).
    destruct Hh as [->|[st ->]]; [repeat split|].
    destruct (listingHeaders_quiet opts st) as (-> & -> & ->).
    repeat split. }
  destruct Hcase
    as [[Hv Hs] | [(st & Hs & Hr) | (st & names & Hs & Hr & Hp & Hps)]].
  - exists []. rewrite (middleware_stat_failed _ _ _ _ Hd Hv Hs).
    split; [now left|]. split; [reflexivity|]. apply (Hout []). now left.
  - exists []. rewrite (middleware_readdir_failed _ _ _ _ _ Hd Hs Hr).
    split; [now left|]. split; [reflexivity|]. apply (Hout []). now left.
  - exists (listingHeaders opts st).
    rewrite (middleware_listing _ _ _ _ _ Hd Hs Hr).
    rewrite (afterSort_parent_failed _ _ _ _ _ _
               (stat_returned_valid _ _ Hs) Hp Hps).
    split; [right; now exists st|]. split; [reflexivity|].
    apply Hout. right. now exists st.
Qed.

(** C6: with show-dotfiles off the names starting with a dot are removed
    from the directory read, in place; with show-dotfiles on the read is
    kept as it is; the listing is classified and rendered from the names
    that remain.  Of [.env] and [a.txt] only [a.txt] is listed when the
    option is off. *)
Theorem dotfiles_filtered (opts : Options) (files : list string) :
  filterDotfiles opts files
  = (if showDotfiles opts then files
     else filter (fun name => negb (JsString.startsWith name ".")) files)
  /\ (showDotfiles opts = false ->
      filterDotfiles opts [".env"; "a.txt"] = ["a.txt"])
  /\ (showDotfiles opts = true ->
      filterDotfiles opts [".env"; "a.txt"] = [".env"; "a.txt"])
  /\ (forall req decoded st,
        decodeURIComponent (pathname req) = Some decoded ->
        stat fs (targetDir opts decoded) = inr st ->
        readdir fs (targetDir opts decoded) = inr files ->
        middleware opts req
        = let '(t, c) :=
            afterSort req opts decoded (targetDir opts decoded)
              (sortFiles (targetDir opts decoded)
                 (filterDotfiles opts files)) in
          ((listingHeaders opts st ++ t)%list, c)).
Proof.
  split; [|split; [|split]].
  - unfold filterDotfiles. destruct (showDotfiles opts); cbn [negb];
      [reflexivity|].
    apply filter_ext. intros name.
    now rewrite <- (slice_first_is_prefix "." name).
  - unfold filterDotfiles. now intros ->.
  - unfold filterDotfiles. now intros ->.
  - intros req decoded st. apply middleware_listing.
Qed.

(** C10: a directory always gets the folder icon.  Any other entry gets
    the icon named by what follows the last dot of its displayed name
    (the name without its [.url] suffix for a shortcut) when the style
    table knows it, and the page icon otherwise; a name without a dot is
    its own extension, so a file called [png] gets the [png] icon as soon
    as the table has that key. *)
Theorem icon_class_rule (name : string) :
  iconClassOf true name = "icon-folder"
  /\ iconClassOf false name
     = "icon-" ++ (if supportedIcons (extOf name) then extOf name
                   else "_page")
  /\ (JsString.mem "." name = false -> extOf name = name)
  /\ (forall front ext,
        name = front ++ "." ++ ext -> JsString.mem "." ext = false ->
        extOf name = ext)
  /\ (supportedIcons "png" = true -> iconClassOf false "png" = "icon-png")
  /\ (forall req opts parent meta r,
        rowOf req opts parent (name, meta) = Returned r ->
        iconClass r
        = iconClassOf (isDir (name, meta))
            (if external r
             then JsString.substring0 (String.length name - 4) name
             else name)).
Proof.
  split; [reflexivity|]. split; [reflexivity|].
  split.
  { intros H. unfold extOf. now rewrite (split_absent _ _ H). }
  split.
  { intros front ext -> H. unfold extOf.
    change (front ++ "." ++ ext) with (front ++ String "." ext).
    now apply pop_split_after_last. }
  split.
  { intros H. unfold iconClassOf, extOf. cbn. now rewrite H. }
  intros req opts parent meta r. unfold rowOf. cbn [fst snd].
  destruct (negb (isDir (name, meta)) && JsString.endsWith name ".url") eqn:U.
  - apply andb_true_iff in U as [Hd _]. apply negb_true_iff in Hd.
    destruct (readFileSync fs _); [discriminate|].
    intros [= <-]. cbn [iconClass external]. now rewrite Hd.
  - intros [= <-]. reflexivity.
Qed.

(** C5: for an entry that is not a directory and whose name ends in
    [.url], once its content is read the row links to the trimmed content
    and nothing else, shows the HTML-encoded name without the four
    characters of the suffix, opens in a new tab under the [external]
    class, and carries a dash as its size. *)
Theorem shortcut_row (req : Request) (opts : Options) (parent name : string)
    (meta : Meta) (content : string) :
  isDir (name, meta) = false ->
  JsString.endsWith name ".url" = true ->
  readFileSync fs (Path.resolve cwd [parent; name]) = inr content ->
  exists base r,
    name = base ++ ".url"
    /\ rowOf req opts parent (name, meta) = Returned r
    /\ href r = JsString.trim content
    /\ displayName r = he_encode base
    /\ external r = true
    /\ filesize r = "-"
    /\ forall html,
         writeRow req opts parent html (name, meta)
         = Returned
             (html ++ "<tr><td><i class=" ++ dq ++ "icon " ++ iconClass r
                ++ dq ++ "></i></td>"
                ++ ("<td class=" ++ q "display-name external" ++ "><a href="
                      ++ q (JsString.trim content) ++ " target=" ++ q "_blank"
                      ++ ">" ++ he_encode base ++ "</a></td>")
                ++ "<td class=" ++ q "modified" ++ "><code>"
                ++ convertDateTime (mtimeOf meta) ++ "</code></td>"
                ++ "<td class=" ++ q "filesize" ++ "><code>" ++ "-"
                ++ "</code></td>" ++ "</tr>" ++ nl).
Proof.
  intros Hd Hu Hr.
  pose proof (endsWith_inv _ _ Hu) as Hname.
  change (String.length ".url") with 4%nat in Hname.
  set (base := JsString.substring0 (String.length name - 4) name) in *.
  assert (Hrow : rowOf req opts parent (name, meta)
                 = Returned
                     {| iconClass := iconClassOf false base;
                        external := true;
                        href := JsString.trim content;
                        displayName := he_encode base ++ "";
                        lastModified := convertDateTime (mtimeOf meta);
                        filesize := "-" |}).
  { unfold rowOf. cbn [fst snd]. rewrite Hd, Hu, Hr. reflexivity. }
  assert (Hnil : he_encode base ++ "" = he_encode base).
  { generalize (he_encode base). intros x.
    induction x as [|c x IH]; cbn [append]; [reflexivity | now rewrite IH]. }
  rewrite Hnil in Hrow.
  eexists base, _. split; [exact Hname|]. split; [exact Hrow|].
  cbn [href displayName external filesize iconClass].
  repeat split. intros html. unfold writeRow. rewrite Hrow. reflexivity.
Qed.

(** C7: the last-modified cell of a row is [convertDateTime] of the
    entry's [mtime].  When the [mtime] has an ISO string, that string is
    a date, [T], a clock, a dot, the milliseconds and [Z], and the cell is
    the date, a space and the clock.  When the entry has no [mtime], or
    the conversion throws, the cell is nine [&nbsp;], a dash and nine
    [&nbsp;]. *)
Theorem last_modified_cell (req : Request) (opts : Options) (parent : string)
    (file : Entry) (r : Row) :
  rowOf req opts parent file = Returned r ->
  lastModified r = convertDateTime (mtimeOf (snd file))
  /\ (forall s iso,
        snd file = Some s -> JsDate.toISOString (mtime s) = Some iso ->
        exists t,
          iso = JsDate.isoDate t ++ "T" ++ JsDate.isoTime t ++ "."
                  ++ JsDate.isoMillis t ++ "Z"
          /\ JsString.mem "." (JsDate.isoDate t ++ "T" ++ JsDate.isoTime t)
             = false
          /\ lastModified r = JsDate.isoDate t ++ " " ++ JsDate.isoTime t)
  /\ ((snd file = None
       \/ exists s, snd file = Some s /\ JsDate.toISOString (mtime s) = None) ->
      lastModified r
      = "&nbsp;&nbsp;&nbsp;&nbsp;&nbsp;&nbsp;&nbsp;&nbsp;&nbsp;-&nbsp;&nbsp;&nbsp;&nbsp;&nbsp;&nbsp;&nbsp;&nbsp;&nbsp;").
Proof.
  intros Hrow.
  assert (Hcell : lastModified r = convertDateTime (mtimeOf (snd file))).
  { revert Hrow. unfold rowOf.
    destruct (negb (isDir file) && JsString.endsWith (fst file) ".url").
    - destruct (readFileSync fs _); [discriminate|]. now intros [= <-].
    - now intros [= <-]. }
  split; [exact Hcell|]. split.
  - intros s iso Hs Hiso. rewrite Hcell, Hs. cbn [mtimeOf].
    destruct (toISOString_shape _ _ Hiso) as (t & Ht & V & ->).
    exists t. split; [reflexivity|]. split.
    + rewrite mem_app. cbn [JsString.mem append].
      rewrite mem_isoDate; [|outside_digits | discriminate | discriminate].
      rewrite mem_isoTime; [reflexivity | outside_digits | discriminate].
    + rewrite Ht. now apply convertDateTime_valid.
  - intros [Hn | (s & Hs & Hiso)]; rewrite Hcell.
    + now rewrite Hn.
    + rewrite Hs. cbn [mtimeOf]. now rewrite (convertDateTime_invalid _ Hiso).
Qed.

(** C9: when the content of a non-directory [.url] entry cannot be read,
    writing its row throws, and [render] ends with that exception or with
    the one of an earlier unreadable shortcut: no head is written and no
    body, whatever else the buckets hold. *)
Theorem unreadable_shortcut_aborts (req : Request) (opts : Options)
    (decoded parent : string) (dirs renderFiles lolwuts : list Entry)
    (file : Entry) (err : Errno) :
  In file (dirs ++ renderFiles ++ lolwuts)%list ->
  isDir file = false ->
  JsString.endsWith (fst file) ".url" = true ->
  readFileSync fs (Path.resolve cwd [parent; fst file]) = inl err ->
  (forall html, writeRow req opts parent html file = Threw (FsError err))
  /\ exists err',
       render req opts decoded dirs renderFiles lolwuts parent
       = ([], Threw (FsError err')).
Proof.
  intros Hin Hd Hu Hr.
  pose proof (rowOf_unreadable req opts parent file err Hd Hu Hr) as Hrow.
  split.
  - intros html. unfold writeRow. now rewrite Hrow.
  - assert (Hin' : In file (rowOrder dirs renderFiles lolwuts)).
    { unfold rowOrder. rewrite !in_app_iff, !sort_In.
      now rewrite !in_app_iff in Hin. }
    destruct (forEachRow_unreadable req opts parent _ _ _ Hin' Hrow
                (pageHead decoded)) as [err' Hrows].
    exists err'. apply render_threw.
    rewrite renderHtml_rowOrder. now rewrite Hrows.
Qed.

(** C8, as amended: without a [host] header, once the stat of the
    target, the read of the directory, the classification and -- when the
    parent lies under the root -- the stat of the parent have succeeded,
    [render] throws before [writeHead]: the request sets its four headers
    and produces neither a response nor an error call.  The exception is
    the TypeError of [host.endsWith], unless the row of an unreadable
    shortcut threw first. *)
Theorem missing_host_render_throws (opts : Options) (req : Request)
    (decoded : string) (st : Stats) (names : list string) :
  host req = None ->
  decodeURIComponent (pathname req) = Some decoded ->
  stat fs (targetDir opts decoded) = inr st ->
  readdir fs (targetDir opts decoded) = inr names ->
  (parentInRoot opts (targetDir opts decoded) = true ->
   exists s, stat fs (Path.join [targetDir opts decoded; ".."]) = inr s) ->
  exists e,
    middleware opts req = (listingHeaders opts st, Threw e)
    /\ noOutcome (trace (middleware opts req))
    /\ (e = TypeError "Cannot read properties of undefined (reading 'endsWith')"
        \/ exists err, e = FsError err).
Proof.
  intros Hh Hd Hs Hr Hp.
  rewrite (middleware_listing _ _ _ _ _ Hd Hs Hr).
  destruct (sortFiles _ _) as [[lolwuts dirs] files].
  rewrite (afterSort_valid _ _ _ _ _ _ _ (stat_returned_valid _ _ Hs)).
  assert (Hw : exists dirs', withParent opts (targetDir opts decoded) dirs
                             = inr dirs').
  { unfold withParent.
    destruct (parentInRoot opts (targetDir opts decoded)); [|now eexists].
    destruct (Hp eq_refl) as [s ->]. now eexists. }
  destruct Hw as [dirs' ->].
  assert (Hthrow : exists e,
             renderHtml req opts decoded dirs' files lolwuts
               (targetDir opts decoded) = Threw e
             /\ (e = TypeError "Cannot read properties of undefined (reading 'endsWith')"
                 \/ exists err, e = FsError err)).
  { rewrite renderHtml_rowOrder.
    destruct (forEachRow _ _ _ _ _) as [rows|e] eqn:R.
    - unfold pageFoot. rewrite Hh. eexists. split; [reflexivity | now left].
    - exists e. split; [reflexivity|]. right.
      now apply forEachRow_threw in R. }
  destruct Hthrow as (e & He & Hkind).
  rewrite (render_threw _ _ _ _ _ _ _ _ He).
  exists e. rewrite app_nil_r. split; [reflexivity|]. split; [|exact Hkind].
  unfold noOutcome, trace. cbn [fst]. apply listingHeaders_quiet.
Qed.

(** C2, as amended: the [..] entry is put in front of the [dirs] bucket
    exactly when the resolved root is a string prefix of the resolved
    parent path and the stat of the parent succeeds; it carries that
    stat.  When the root is no prefix the bucket is left as it is.  With
    the root [/srv], the target [/srv/a] passes the test and its entry is
    the stat of [/srv]; the target [/srv] does not pass it. *)
Theorem parent_entry_rule (opts : Options) (dir : string)
    (dirs : list Entry) (s : Stats) :
  (withParent opts dir dirs = inr ((("..", Some s) : Entry) :: dirs)
   <-> JsString.startsWith (Path.resolve cwd [dir; ".."]) (resolvedRoot opts)
       = true
       /\ stat fs (Path.join [dir; ".."]) = inr s)
  /\ (JsString.startsWith (Path.resolve cwd [dir; ".."]) (resolvedRoot opts)
      = false ->
      withParent opts dir dirs = inr dirs)
  /\ (root opts = "/srv" ->
      parentInRoot opts "/srv/a" = true
      /\ Path.join ["/srv/a"; ".."] = "/srv"
      /\ parentInRoot opts "/srv" = false
      /\ withParent opts "/srv" dirs = inr dirs).
Proof.
  assert (Htest : parentInRoot opts dir
                  = JsString.startsWith (Path.resolve cwd [dir; ".."])
                      (resolvedRoot opts)).
  { unfold parentInRoot. cbv zeta. apply slice_first_is_prefix. }
  split; [|split].
  - unfold withParent. rewrite Htest.
    destruct (JsString.startsWith _ _).
    + destruct (stat fs _) as [err|s'].
      * split; [discriminate | intros [_ H]; discriminate].
      * split.
        -- intros [= ->]. now split.
        -- intros [_ [= ->]]. reflexivity.
    + split; [|intros [H _]; discriminate].
      intros [= H]. exfalso.
      apply (f_equal (@List.length Entry)) in H. simpl in H. lia.
  - intros H. unfold withParent. now rewrite Htest, H.
  - intros Hroot.
    assert (Hr : resolvedRoot opts = "/srv").
    { unfold resolvedRoot. rewrite Hroot. reflexivity. }
    assert (Hin : parentInRoot opts "/srv/a" = true).
    { unfold parentInRoot. rewrite Hr. reflexivity. }
    assert (Hout : parentInRoot opts "/srv" = false).
    { unfold parentInRoot. rewrite Hr. reflexivity. }
    repeat split; try assumption.
    unfold withParent. now rewrite Hout.
Qed.

(** C3, at the failing input: the files bucket is ordered by the string
    form of the whole [[name, stat]] tuple, not by the name.  Whenever a
    space collates before a comma and a name collates before its own
    extensions, the rows of the files [a] and [a b] are written as [a b],
    then [a]: not ascending by name. *)
Theorem files_bucket_order_by_tuple_string (req : Request) (opts : Options)
    (decoded parent : string) (s1 s2 : Stats) :
  0 < localeCompare "a,[object Object]" "a b,[object Object]" ->
  0 < localeCompare "a b" "a" ->
  rowOrder [] [("a", Some s1); ("a b", Some s2)] []
  = [("a b", Some s2); ("a", Some s1)]
  /\ ~ ascending byName (rowOrder [] [("a", Some s1); ("a b", Some s2)] [])
  /\ renderHtml req opts decoded [] [("a", Some s1); ("a b", Some s2)] []
       parent
     = match forEachRow req opts parent
               [("a b", Some s2); ("a", Some s1)] (pageHead decoded) with
       | Threw e => Threw e
       | Returned rows =>
           match pageFoot req with
           | Threw e => Threw e
           | Returned foot => Returned (rows ++ foot)
           end
       end.
Proof.
  intros Hkey Hname.
  assert (Horder : rowOrder [] [("a", Some s1); ("a b", Some s2)] []
                   = [("a b", Some s2); ("a", Some s1)]).
  { unfold rowOrder, JsArray.sort. cbn [fold_right JsArray.insert app].
    unfold byToString at 1. unfold entryToString. cbn [fst snd append].
    destruct (localeCompare _ _ <=? 0) eqn:E; [|reflexivity].
    apply Z.leb_le in E. lia. }
  split; [exact Horder|]. split.
  - rewrite Horder. unfold ascending. intros Hs.
    inversion Hs as [|? ? _ Hh]; subst.
    inversion Hh as [|? ? Hle]; subst.
    unfold byName in Hle. cbn [fst] in Hle. lia.
  - now rewrite renderHtml_rowOrder, Horder.
Qed.

(* ================================================================== *)
(** ** Facts about paths *)

Lemma split_pieces (c : ascii) (s x : string) :
  In x (JsString.split c s) -> JsString.mem c x = false.
Proof.
  revert x. induction s as [|a s IH]; cbn [JsString.split]; intros x Hin.
  - destruct Hin as [<-|[]]. reflexivity.
  - destruct (Ascii.eqb a c) eqn:E.
    + destruct Hin as [<-|Hin]; [reflexivity | now apply IH].
    + destruct (JsString.split c s) as [|p ps] eqn:Es.
      * destruct Hin as [<-|[]]. cbn [JsString.mem]. now rewrite E.
      * destruct Hin as [<-|Hin].
        -- cbn [JsString.mem]. rewrite E. apply IH. now left.
        -- apply IH. now right.
Qed.

Lemma split_join (segs : list string) :
  segs <> [] ->
  Forall (fun x => JsString.mem "/" x = false) segs ->
  JsString.split "/" (JsString.join "/" segs) = segs.
Proof.
  unfold JsString.join.
  induction segs as [|x segs IH]; intros Hne Hall; [contradiction|].
  inversion Hall as [|? ? Hx Hrest]; subst.
  destruct segs as [|y segs].
  - cbn [String.concat]. now apply split_absent.
  - change (String.concat "/" (x :: y :: segs))
      with (x ++ String "/" (String.concat "/" (y :: segs))).
    rewrite split_app_sep, (split_absent _ _ Hx), IH; [reflexivity | discriminate | assumption].
Qed.

Lemma cleanSeg_eqbs (s : string) :
  cleanSeg s ->
  String.eqb s "" = false /\ String.eqb s "." = false
  /\ String.eqb s ".." = false.
Proof.
  intros (H1 & H2 & H3 & _). repeat split; apply String.eqb_neq; assumption.
Qed.

Lemma normalizeSegs_clean_prefix (allow : bool) (xs : list string) :
  forall acc ys,
  Forall cleanSeg xs ->
  Path.normalizeSegs allow acc (xs ++ ys)
  = Path.normalizeSegs allow (rev xs ++ acc) ys.
Proof.
  induction xs as [|x xs IH]; intros acc ys Hall; [reflexivity|].
  inversion Hall as [|? ? Hx Hrest]; subst.
  destruct (cleanSeg_eqbs _ Hx) as (E1 & E2 & E3).
  cbn [app Path.normalizeSegs rev]. rewrite E1, E2, E3. cbn [orb].
  rewrite (IH _ _ Hrest), <- app_assoc. reflexivity.
Qed.

Lemma normalizeSegs_clean (allow : bool) (xs : list string) :
  Forall cleanSeg xs -> Path.normalizeSegs allow [] xs = xs.
Proof.
  intros H. rewrite <- (app_nil_r xs) at 1.
  rewrite (normalizeSegs_clean_prefix _ _ _ _ H). cbn [Path.normalizeSegs].
  now rewrite app_nil_r, rev_involutive.
Qed.

Lemma normalizeSegs_gives_clean (segs : list string) :
  forall acc,
  Forall cleanSeg acc ->
  Forall (fun x => JsString.mem "/" x = false) segs ->
  Forall cleanSeg (Path.normalizeSegs false acc segs).
Proof.
  induction segs as [|seg rest IH]; intros acc Hacc Hsegs;
    cbn [Path.normalizeSegs].
  - now apply Forall_rev.
  - inversion Hsegs as [|? ? Hs Hrest]; subst.
    destruct (String.eqb seg "") eqn:E1; [now apply IH|].
    destruct (String.eqb seg ".") eqn:E2; [now apply IH|]. cbn [orb].
    destruct (String.eqb seg "..") eqn:E3.
    + destruct acc as [|top acc']; [now apply IH|].
      inversion Hacc; subst.
      destruct (String.eqb top ".."); now apply IH.
    + apply IH; [|assumption]. constructor; [|assumption].
      apply String.eqb_neq in E1, E2, E3. now repeat split.
Qed.

Lemma normalizeSegs_skips_empty (allow : bool) (segs : list string) :
  forall acc,
  Path.normalizeSegs allow acc
    (filter (fun a => negb (String.eqb a "")) segs)
  = Path.normalizeSegs allow acc segs.
Proof.
  induction segs as [|seg rest IH]; intros acc; [reflexivity|].
  cbn [filter]. destruct (String.eqb seg "") eqn:E; cbn [negb].
  - cbn [Path.normalizeSegs]. rewrite E. cbn [orb]. apply IH.
  - cbn [Path.normalizeSegs]. rewrite E. cbn [orb].
    destruct (String.eqb seg "."); [apply IH|].
    destruct (String.eqb seg ".."); [|apply IH].
    destruct acc as [|top acc']; [apply IH|].
    destruct (String.eqb top ".."); apply IH.
Qed.

(** The clean segments of a normalised absolute path. *)
Lemma normalizeString_segments (p : string) :
  Path.normalizeString p false
  = JsString.join "/" (Path.normalizeSegs false [] (Path.segments p))
  /\ Forall cleanSeg (Path.normalizeSegs false [] (Path.segments p)).
Proof.
  unfold Path.normalizeString, Path.segments.
  rewrite normalizeSegs_skips_empty. split; [reflexivity|].
  apply normalizeSegs_gives_clean; [constructor|].
  apply Forall_forall. intros x. apply split_pieces.
Qed.

Lemma segments_app_sep (a b : string) :
  Path.segments (a ++ String "/" b)
  = (Path.segments a ++ Path.segments b)%list.
Proof. unfold Path.segments. now rewrite split_app_sep, filter_app. Qed.

Lemma filter_clean (segs : list string) :
  Forall cleanSeg segs ->
  filter (fun a => negb (String.eqb a "")) segs = segs.
Proof.
  induction 1 as [|x l Hx _ IH]; [reflexivity|].
  cbn [filter]. destruct (cleanSeg_eqbs _ Hx) as (-> & _). cbn [negb].
  now rewrite IH.
Qed.

Lemma clean_no_sep (segs : list string) :
  Forall cleanSeg segs -> Forall (fun x => JsString.mem "/" x = false) segs.
Proof. apply Forall_impl. now intros x (_ & _ & _ & H). Qed.

Lemma segments_join (segs : list string) :
  Forall cleanSeg segs -> Path.segments (JsString.join "/" segs) = segs.
Proof.
  intros H. unfold Path.segments. destruct segs as [|x segs]; [reflexivity|].
  rewrite split_join; [now apply filter_clean | discriminate |].
  now apply clean_no_sep.
Qed.

Lemma segments_rooted (segs : list string) (tl : string) :
  Forall cleanSeg segs -> tl = "" \/ tl = "/" ->
  Path.segments ("/" ++ JsString.join "/" segs ++ tl) = segs.
Proof.
  intros H Htl.
  change ("/" ++ JsString.join "/" segs ++ tl)
    with ("" ++ String "/" (JsString.join "/" segs ++ tl)).
  rewrite segments_app_sep. change (Path.segments "") with (@nil string).
  cbn [app]. destruct Htl as [->| ->].
  - assert (E : forall s : string, s ++ "" = s).
    { induction s as [|c s IH]; cbn [append]; [reflexivity | now rewrite IH]. }
    rewrite E. now apply segments_join.
  - change (JsString.join "/" segs ++ "/")
      with (JsString.join "/" segs ++ String "/" "").
    rewrite segments_app_sep, segments_join by assumption.
    change (Path.segments "") with (@nil string). apply app_nil_r.
Qed.

Lemma str_app_nil_r (s : string) : s ++ "" = s.
Proof. induction s as [|c s IH]; cbn [append]; [reflexivity | now rewrite IH]. Qed.

Lemma prefix_app (a b : string) : prefix a (a ++ b) = true.
Proof.
  induction a as [|c a IH]; cbn [append prefix]; [now destruct b|].
  destruct (ascii_dec c c) as [_|n]; [exact IH | now elim n].
Qed.

Lemma prefix_length (a b : string) :
  prefix a b = true -> (String.length a <= String.length b)%nat.
Proof.
  revert b. induction a as [|c a IH]; intros b; cbn [prefix String.length];
    [lia|].
  destruct b as [|d b]; cbn [prefix]; [intros [=]|].
  destruct (ascii_dec c d); [|intros [=]].
  intros H. apply IH in H. cbn [String.length]. lia.
Qed.

Lemma absolute_nonempty (p : string) :
  Path.isAbsolute p = true -> String.eqb p "" = false.
Proof. destruct p; [discriminate | reflexivity]. Qed.

Lemma normalize_absolute (p : string) :
  Path.isAbsolute p = true ->
  exists tl,
    (tl = "" \/ tl = "/")
    /\ Path.normalize p = "/" ++ Path.normalizeString p false ++ tl.
Proof.
  intros Habs. unfold Path.normalize.
  rewrite (absolute_nonempty _ Habs), Habs. cbn [negb].
  destruct (String.eqb (Path.normalizeString p false) "") eqn:En.
  - apply String.eqb_eq in En. rewrite En. exists "". split; [now left|].
    reflexivity.
  - destruct (JsString.endsWith p "/").
    + exists "/". split; [now right | reflexivity].
    + exists "". split; [now left|]. now rewrite str_app_nil_r.
Qed.

(** Normalising an absolute path gives the root followed by the clean
    segments of the path, with or without a closing separator. *)
Lemma normalize_segments (p : string) :
  Path.isAbsolute p = true ->
  exists tl,
    (tl = "" \/ tl = "/")
    /\ Path.normalize p
       = "/" ++ JsString.join "/"
                  (Path.normalizeSegs false [] (Path.segments p)) ++ tl
    /\ Path.segments (Path.normalize p)
       = Path.normalizeSegs false [] (Path.segments p)
    /\ Path.isAbsolute (Path.normalize p) = true.
Proof.
  intros Habs. destruct (normalize_absolute _ Habs) as (tl & Htl & Hn).
  destruct (normalizeString_segments p) as (Hs & Hclean).
  exists tl. rewrite Hn, Hs. repeat split; try assumption.
  now apply segments_rooted.
Qed.

Lemma join_pair (a b : string) :
  Path.isAbsolute a = true ->
  exists p,
    Path.join [a; b] = Path.normalize p
    /\ Path.isAbsolute p = true
    /\ Path.segments p = (Path.segments a ++ Path.segments b)%list.
Proof.
  intros Habs. unfold Path.join. cbn [filter].
  rewrite (absolute_nonempty _ Habs). cbn [negb].
  destruct (String.eqb b "") eqn:Eb; cbn [negb].
  - apply String.eqb_eq in Eb. subst b. exists a.
    change (JsString.join "/" [a]) with a.
    repeat split; [assumption|].
    change (Path.segments "") with (@nil string). now rewrite app_nil_r.
  - exists (a ++ String "/" b).
    repeat split.
    + destruct a; [discriminate | exact Habs].
    + apply segments_app_sep.
Qed.

Lemma resolveScan_reaches_cwd (l : list string) :
  Path.isAbsolute cwd = true ->
  forall acc, exists rp, Path.resolveScan (l ++ [cwd]) acc = (rp, true).
Proof.
  intros Habs. induction l as [|p l IH]; intros acc; cbn [app Path.resolveScan].
  - rewrite (absolute_nonempty _ Habs), Habs. now eexists.
  - destruct (String.eqb p ""); [apply IH|].
    destruct (Path.isAbsolute p); [now eexists | apply IH].
Qed.

(** Under an absolute working directory [path.resolve] gives the root
    followed by clean segments. *)
Lemma resolve_form (args : list string) :
  Path.isAbsolute cwd = true ->
  exists segs,
    Forall cleanSeg segs
    /\ Path.resolve cwd args = "/" ++ JsString.join "/" segs.
Proof.
  intros Habs. unfold Path.resolve. cbn [rev].
  destruct (resolveScan_reaches_cwd (rev args) Habs "") as [rp ->].
  cbv beta iota zeta. cbn [negb].
  destruct (normalizeString_segments rp) as (-> & Hclean).
  eexists. split; [exact Hclean | reflexivity].
Qed.

Lemma segments_of_rooted (segs : list string) :
  Forall cleanSeg segs ->
  Path.segments ("/" ++ JsString.join "/" segs) = segs.
Proof.
  intros H. rewrite <- (str_app_nil_r (JsString.join "/" segs)).
  apply segments_rooted; [assumption | now left].
Qed.

Lemma join_app_prefix (rs ns : list string) :
  exists rest,
    JsString.join "/" (rs ++ ns) = JsString.join "/" rs ++ rest.
Proof.
  unfold JsString.join. induction rs as [|x rs IH]; cbn [app].
  - now eexists.
  - destruct IH as [rest IH]. destruct rs as [|y rs].
    + cbn [app] in *. destruct ns as [|n ns].
      * exists "". cbn [String.concat]. now rewrite str_app_nil_r.
      * exists ("/" ++ String.concat "/" (n :: ns)). reflexivity.
    + exists rest.
      change (String.concat "/" (x :: (y :: rs) ++ ns))
        with (x ++ "/" ++ String.concat "/" ((y :: rs) ++ ns)).
      rewrite IH.
      change (String.concat "/" (x :: y :: rs))
        with (x ++ "/" ++ String.concat "/" (y :: rs)).
      now rewrite !str_app_assoc.
Qed.

(** The shape of the target directory when the base directory is the
    root of the URL space: the resolved root, then clean segments. *)
Lemma targetDir_shape (opts : Options) (decoded : string) :
  Path.isAbsolute cwd = true ->
  baseDir opts = "/" ->
  exists rs ns tl,
    Forall cleanSeg rs /\ Forall cleanSeg ns /\ (tl = "" \/ tl = "/")
    /\ resolvedRoot opts = "/" ++ JsString.join "/" rs
    /\ targetDir opts decoded = "/" ++ JsString.join "/" (rs ++ ns) ++ tl.
Proof.
  intros Habs Hbase.
  destruct (resolve_form [root opts] Habs) as (rs & Hrs & HR).
  assert (Hrel : exists ns,
             Forall cleanSeg ns
             /\ Path.segments
                  (Path.relative cwd (Path.join ["/"; baseDir opts]) decoded)
                = ns).
  { rewrite Hbase. change (Path.join ["/"; "/"]) with "/".
    unfold Path.relative. destruct (String.eqb "/" decoded).
    - exists []. split; [constructor | reflexivity].
    - change (Path.resolve cwd ["/"]) with "/".
      change (Path.segments "/") with (@nil string).
      destruct (resolve_form [decoded] Habs) as (ds & Hds & ->).
      rewrite (segments_of_rooted _ Hds).
      cbn [Path.dropCommon map app].
      exists ds. split; [assumption | now apply segments_join]. }
  destruct Hrel as (ns & Hns & Hrel).
  assert (HRabs : Path.isAbsolute (resolvedRoot opts) = true)
    by (unfold resolvedRoot; now rewrite HR).
  unfold targetDir.
  destruct (join_pair (resolvedRoot opts)
              (Path.relative cwd (Path.join ["/"; baseDir opts]) decoded)
              HRabs) as (p & -> & Hp & Hsegs).
  rewrite Hrel in Hsegs. unfold resolvedRoot in Hsegs.
  rewrite HR, (segments_of_rooted _ Hrs) in Hsegs.
  assert (Hall : Forall cleanSeg (rs ++ ns)) by (apply Forall_app; now split).
  destruct (normalize_segments p Hp) as (tl1 & _ & _ & Hs1 & Habs1).
  rewrite Hsegs, (normalizeSegs_clean _ _ Hall) in Hs1.
  destruct (normalize_segments _ Habs1) as (tl & Htl & Hn & _ & _).
  rewrite Hs1, (normalizeSegs_clean _ _ Hall) in Hn.
  exists rs, ns, tl. repeat split; assumption.
Qed.

Lemma normalizeSegs_parent (segs : list string) :
  Forall cleanSeg segs ->
  Path.normalizeSegs false [] (segs ++ [".."]) = removelast segs.
Proof.
  intros H. rewrite (normalizeSegs_clean_prefix _ _ _ _ H), app_nil_r.
  destruct segs as [|x segs] using rev_ind; [reflexivity|].
  rewrite rev_app_distr, removelast_last. cbn [rev app Path.normalizeSegs].
  apply Forall_app in H as [_ Hx]. inversion Hx; subst.
  destruct (cleanSeg_eqbs x) as (_ & _ & ->); [assumption|].
  cbn. apply rev_involutive.
Qed.

Lemma resolve_parent (dir : string) :
  Path.isAbsolute dir = true ->
  Path.resolve cwd [dir; ".."]
  = "/" ++ JsString.join "/"
             (Path.normalizeSegs false [] (Path.segments dir ++ [".."])).
Proof.
  intros Habs. unfold Path.resolve. cbn [rev app Path.resolveScan].
  change (String.eqb ".." "") with false.
  change (Path.isAbsolute "..") with false. cbv beta iota.
  rewrite (absolute_nonempty _ Habs), Habs. cbv beta iota zeta. cbn [negb].
  destruct (normalizeString_segments (dir ++ "/" ++ ".." ++ "/" ++ ""))
    as (-> & _).
  change (dir ++ "/" ++ ".." ++ "/" ++ "") with (dir ++ String "/" "../").
  rewrite segments_app_sep. reflexivity.
Qed.

Lemma join_removelast_shorter (segs : list string) :
  segs <> [] -> Forall cleanSeg segs ->
  (String.length (JsString.join "/" (removelast segs))
   < String.length (JsString.join "/" segs))%nat.
Proof.
  unfold JsString.join.
  induction segs as [|x segs IH]; intros Hne Hall; [contradiction|].
  inversion Hall as [|? ? Hx Hrest]; subst.
  destruct segs as [|y segs].
  - cbn. destruct Hx as (Hx & _). destruct x; [contradiction|]. cbn. lia.
  - specialize (IH ltac:(discriminate) Hrest).
    change (removelast (x :: y :: segs)) with (x :: removelast (y :: segs)).
    change (String.concat "/" (x :: y :: segs))
      with (x ++ "/" ++ String.concat "/" (y :: segs)).
    destruct (removelast (y :: segs)) as [|z zs].
    + cbn [String.concat]. rewrite !str_length_app. cbn [String.length]. lia.
    + change (String.concat "/" (x :: z :: zs))
        with (x ++ "/" ++ String.concat "/" (z :: zs)).
      rewrite !str_length_app. lia.
Qed.

(** X4: with the base directory [/] and an absolute working directory,
    no request path leaves the root: the segments of the target
    directory are those of the resolved root followed by segments none of
    which is empty, [.] or [..], and the resolved root is a string prefix
    of the target. *)
Theorem target_stays_under_root (opts : Options) (decoded : string) :
  Path.isAbsolute cwd = true ->
  baseDir opts = "/" ->
  exists below,
    Forall cleanSeg below
    /\ Path.segments (targetDir opts decoded)
       = (Path.segments (resolvedRoot opts) ++ below)%list
    /\ JsString.startsWith (targetDir opts decoded) (resolvedRoot opts) = true.
Proof.
  intros Habs Hbase.
  destruct (targetDir_shape opts decoded Habs Hbase)
    as (rs & ns & tl & Hrs & Hns & Htl & HR & HT).
  exists ns. split; [assumption|]. rewrite HR, HT. split.
  - rewrite segments_rooted, segments_of_rooted; try assumption; [reflexivity|].
    apply Forall_app. now split.
  - unfold JsString.startsWith.
    destruct (join_app_prefix rs ns) as [rest ->].
    rewrite str_app_assoc.
    change ("/" ++ JsString.join "/" rs ++ rest ++ tl)
      with (("/" ++ JsString.join "/" rs) ++ rest ++ tl).
    apply prefix_app.
Qed.

(** X5: with the base directory [/] and an absolute working directory,
    the test for the [..] entry passes for every target below the root,
    fails for the root itself, and passes for the root too when the root
    is [/]. *)
Theorem parent_test_by_depth (opts : Options) (decoded : string) :
  Path.isAbsolute cwd = true ->
  baseDir opts = "/" ->
  (Path.segments (targetDir opts decoded)
   <> Path.segments (resolvedRoot opts) ->
   parentInRoot opts (targetDir opts decoded) = true)
  /\ (Path.segments (targetDir opts decoded)
      = Path.segments (resolvedRoot opts) ->
      resolvedRoot opts <> "/" ->
      parentInRoot opts (targetDir opts decoded) = false)
  /\ (resolvedRoot opts = "/" ->
      parentInRoot opts (targetDir opts decoded) = true).
Proof.
  intros Habs Hbase.
  destruct (targetDir_shape opts decoded Habs Hbase)
    as (rs & ns & tl & Hrs & Hns & Htl & HR & HT).
  assert (Hall : Forall cleanSeg (rs ++ ns)) by (apply Forall_app; now split).
  assert (Htest : parentInRoot opts (targetDir opts decoded)
                  = prefix (resolvedRoot opts)
                      ("/" ++ JsString.join "/" (removelast (rs ++ ns)))).
  { unfold parentInRoot. cbv zeta. rewrite slice_first_is_prefix.
    unfold JsString.startsWith. rewrite resolve_parent by now rewrite HT.
    rewrite HT, (segments_rooted _ _ Hall Htl).
    now rewrite (normalizeSegs_parent _ Hall). }
  assert (HsT : Path.segments (targetDir opts decoded) = (rs ++ ns)%list)
    by (rewrite HT; now apply segments_rooted).
  assert (HsR : Path.segments (resolvedRoot opts) = rs)
    by (rewrite HR; now apply segments_of_rooted).
  rewrite Htest, HsT, HsR.
  split; [|split].
  - intros Hneq. assert (Hne : ns <> []).
    { intros ->. apply Hneq. now rewrite app_nil_r. }
    rewrite HR, (removelast_app _ Hne).
    destruct (join_app_prefix rs (removelast ns)) as [rest ->].
    change ("/" ++ JsString.join "/" rs ++ rest)
      with (("/" ++ JsString.join "/" rs) ++ rest).
    apply prefix_app.
  - intros Heq Hroot.
    assert (Hns0 : ns = []).
    { rewrite <- (app_nil_r rs) in Heq at 2. now apply app_inv_head in Heq. }
    subst ns. rewrite app_nil_r.
    assert (Hne : rs <> []) by (intros ->; now apply Hroot).
    clear Htest HsT.
    destruct (prefix (resolvedRoot opts) _) eqn:E; [|reflexivity].
    apply prefix_length in E. rewrite HR in E.
    pose proof (join_removelast_shorter rs Hne Hrs) as Hlt.
    cbn [append String.length] in E. lia.
  - intros ->. apply (prefix_app "/").
Qed.

(* ================================================================== *)
(** ** Further facts about requests, rows and pages *)

Lemma rowOf_writable (req : Request) (opts : Options) (parent : string)
    (file : Entry) :
  rowWritable parent file <-> exists r, rowOf req opts parent file = Returned r.
Proof.
  unfold rowWritable, rowOf. split.
  - intros H.
    destruct (isDir file) eqn:Hd; cbn [negb andb]; [now eexists|].
    destruct (JsString.endsWith (fst file) ".url") eqn:Hu; [|now eexists].
    destruct (H eq_refl eq_refl) as [content ->]. now eexists.
  - intros [r Hr] Hd Hu. rewrite Hd, Hu in Hr. cbn [negb andb] in Hr.
    destruct (readFileSync fs _) as [err|content]; [discriminate|].
    now exists content.
Qed.

Lemma forEachRow_returned (req : Request) (opts : Options) (parent : string)
    (l : list Entry) :
  Forall (rowWritable parent) l ->
  forall html,
    forEachRow req opts parent l html
    = Returned (html ++ rowsText req opts parent l).
Proof.
  induction 1 as [|file l Hf _ IH]; intros html; cbn [forEachRow rowsText].
  - now rewrite str_app_nil_r.
  - apply (rowOf_writable req opts) in Hf as [r Hr].
    unfold writeRow, rowText. rewrite Hr, IH. now rewrite str_app_assoc.
Qed.

Lemma forEachRow_all_writable (req : Request) (opts : Options)
    (parent : string) (l : list Entry) :
  forall html h,
  forEachRow req opts parent l html = Returned h ->
  Forall (rowWritable parent) l.
Proof.
  induction l as [|file l IH]; intros html h; cbn [forEachRow];
    [constructor|].
  unfold writeRow. destruct (rowOf req opts parent file) as [r|e] eqn:Hr;
    [|discriminate].
  intros H. constructor; [|now apply IH in H].
  apply (rowOf_writable req opts). now exists r.
Qed.

Lemma rowOrder_Forall (P : Entry -> Prop) (dirs renderFiles lolwuts : list Entry) :
  Forall P (rowOrder dirs renderFiles lolwuts)
  <-> Forall P (dirs ++ renderFiles ++ lolwuts)%list.
Proof.
  rewrite !Forall_forall. unfold rowOrder.
  split; intros H x Hx; apply H; revert Hx;
    rewrite !in_app_iff, !sort_In; tauto.
Qed.

(** X3: [render] writes a page exactly when the request has a [host]
    header and every row can be written -- every non-directory [.url]
    entry of the three buckets can be read.  The page is then written
    once, after the head, as the opening, the rows of the buckets in
    their order, and the closing. *)
Theorem page_written_iff (req : Request) (opts : Options)
    (decoded parent : string) (dirs renderFiles lolwuts : list Entry) :
  ((exists html,
       render req opts decoded dirs renderFiles lolwuts parent
       = ([WriteHead 200 "Content-Type" "text/html"; EndBody html],
          Returned tt))
   <-> (host req <> None
        /\ Forall (rowWritable parent) (dirs ++ renderFiles ++ lolwuts)%list))
  /\ (forall html,
        render req opts decoded dirs renderFiles lolwuts parent
        = ([WriteHead 200 "Content-Type" "text/html"; EndBody html],
           Returned tt) ->
        exists foot,
          pageFoot req = Returned foot
          /\ html = pageHead decoded
                      ++ rowsText req opts parent
                           (rowOrder dirs renderFiles lolwuts)
                      ++ foot).
Proof.
  assert (Hinv : forall html,
             render req opts decoded dirs renderFiles lolwuts parent
             = ([WriteHead 200 "Content-Type" "text/html"; EndBody html],
                Returned tt) ->
             Forall (rowWritable parent) (rowOrder dirs renderFiles lolwuts)
             /\ exists foot,
                  pageFoot req = Returned foot
                  /\ html = pageHead decoded
                              ++ rowsText req opts parent
                                   (rowOrder dirs renderFiles lolwuts)
                              ++ foot).
  { intros html. unfold render. rewrite renderHtml_rowOrder.
    destruct (forEachRow req opts parent _ (pageHead decoded))
      as [rows|e] eqn:R; [|discriminate].
    pose proof (forEachRow_all_writable _ _ _ _ _ _ R) as Hall.
    rewrite (forEachRow_returned _ _ _ _ Hall) in R. injection R as <-.
    destruct (pageFoot req) as [foot|e]; [|discriminate].
    cbn. intros [= <-]. split; [assumption|].
    exists foot. split; [reflexivity | now rewrite str_app_assoc]. }
  split.
  - split.
    + intros [html H]. destruct (Hinv html H) as (Hall & foot & Hfoot & _).
      split; [|now apply rowOrder_Forall].
      intros Hh. unfold pageFoot in Hfoot. now rewrite Hh in Hfoot.
    + intros [Hh Hall]. apply rowOrder_Forall in Hall.
      unfold render. rewrite renderHtml_rowOrder.
      rewrite (forEachRow_returned _ _ _ _ Hall).
      unfold pageFoot. destruct (host req) as [h|]; [|contradiction].
      eexists. reflexivity.
  - intros html H. now destruct (Hinv html H).
Qed.

(** X2: an error call is made exactly when the stat of the target, made
    on a path that [fs.stat] accepts, reports an error, or the read of
    the directory does, or the stat of a parent that passes the root test
    does; nothing else makes the middleware call the status handler or
    [next], and a stat that throws makes it call neither. *)
Theorem error_call_iff_failure (opts : Options) (req : Request)
    (decoded : string) :
  decodeURIComponent (pathname req) = Some decoded ->
  (errorOutcome (trace (middleware opts req))
   <-> ((validPath (targetDir opts decoded) = true
         /\ exists err, stat fs (targetDir opts decoded) = inl err)
        \/ (exists st err,
              stat fs (targetDir opts decoded) = inr st
              /\ readdir fs (targetDir opts decoded) = inl err)
        \/ (exists st names err,
              stat fs (targetDir opts decoded) = inr st
              /\ readdir fs (targetDir opts decoded) = inr names
              /\ parentInRoot opts (targetDir opts decoded) = true
              /\ stat fs (Path.join [targetDir opts decoded; ".."])
                 = inl err))).
Proof.
  intros Hd.
  destruct (validPath (targetDir opts decoded)) eqn:Hv.
  2:{ rewrite (middleware_invalid_path _ _ _ Hd Hv). split.
      - intros (He & _). discriminate.
      - intros [[Hv' _] | [(st & err & Hs & _) | (st & ns & err & Hs & _)]];
          try discriminate;
          apply stat_returned_valid in Hs; congruence. }
  destruct (stat fs (targetDir opts decoded)) as [err|st] eqn:Hs.
  { rewrite (middleware_stat_failed _ _ _ _ Hd Hv Hs). split.
    - intros _. left. split; [reflexivity | now exists err].
    - intros _. unfold errorOutcome, trace. cbn [fst].
      apply errorCall_counts. }
  destruct (readdir fs (targetDir opts decoded)) as [err|names] eqn:Hr.
  { rewrite (middleware_readdir_failed _ _ _ _ _ Hd Hs Hr). split.
    - intros _. right. left. now exists st, err.
    - intros _. unfold errorOutcome, trace. cbn [fst].
      apply errorCall_counts. }
  rewrite (middleware_listing _ _ _ _ _ Hd Hs Hr).
  destruct (sortFiles _ _) as [[lolwuts dirs] files].
  rewrite (afterSort_valid _ _ _ _ _ _ _ Hv).
  destruct (listingHeaders_quiet opts st) as (Q1 & Q2 & Q3).
  unfold withParent.
  destruct (parentInRoot opts (targetDir opts decoded)) eqn:Hp.
  1: destruct (stat fs (Path.join [targetDir opts decoded; ".."]))
       as [err|s] eqn:Hps.
  1:{ rewrite fail_trace. split.
      - intros _. right. right. now exists st, names, err.
      - intros _. unfold errorOutcome, trace. cbn [fst].
        rewrite !count_app, Q1, Q2, Q3. apply errorCall_counts. }
  all: split;
    [ intros (He & _) |
      intros [[_ [err H]] | [(st' & err & _ & H) | (st' & ns & err & _ & _ & Hp' & H)]];
      discriminate ].
  all: exfalso; revert He; unfold render;
    match goal with
    | |- context [renderHtml ?a ?b ?c ?d ?e ?f ?g] =>
        destruct (renderHtml a b c d e f g)
    end;
    unfold trace; cbn [lift bind emit fst]; rewrite ?count_app, ?Q1;
    cbn; discriminate.
Qed.

Lemma strip_added_slash (p : string) :
  JsString.stripTrailingSlash (p ++ "/") = p.
Proof.
  induction p as [|c p IH]; [reflexivity|].
  cbn [append JsString.stripTrailingSlash].
  destruct (p ++ "/") as [|d r] eqn:E.
  - destruct p; discriminate.
  - now rewrite IH.
Qed.

Lemma endsWith_cons (c d : ascii) (r suffix : string) :
  String.length suffix = 1%nat ->
  JsString.endsWith (String c (String d r)) suffix
  = JsString.endsWith (String d r) suffix.
Proof.
  intros Hm. unfold JsString.endsWith. rewrite Hm.
  cbn [String.length Nat.leb].
  replace (S (S (String.length r)) - 1)%nat with (S (String.length r)) by lia.
  replace (S (String.length r) - 1)%nat with (String.length r) by lia.
  reflexivity.
Qed.

Lemma strip_without_slash (p : string) :
  JsString.endsWith p "/" = false -> JsString.stripTrailingSlash p = p.
Proof.
  induction p as [|c p IH]; [reflexivity|].
  destruct p as [|d r].
  - cbn [JsString.stripTrailingSlash]. unfold JsString.endsWith.
    cbn [String.length Nat.leb Nat.sub substring andb].
    destruct (Ascii.eqb c "/") eqn:E; [|reflexivity].
    apply Ascii.eqb_eq in E. subst c. discriminate.
  - rewrite endsWith_cons by reflexivity. intros H.
    change (JsString.stripTrailingSlash (String c (String d r)))
      with (String c (JsString.stripTrailingSlash (String d r))).
    now rewrite (IH H).
Qed.

(** X6: a row does not depend on whether the request path ends in a
    slash: for a path that does not end in one, the request for the path
    and the request for the path followed by a slash give every entry the
    same row, links included. *)
Theorem row_ignores_trailing_slash (opts : Options) (parent p : string)
    (srch h : option string) (file : Entry) :
  JsString.endsWith p "/" = false ->
  rowOf {| pathname := p ++ "/"; search := srch; host := h |} opts parent file
  = rowOf {| pathname := p; search := srch; host := h |} opts parent file.
Proof.
  intros H. unfold rowOf. cbn [pathname search].
  now rewrite strip_added_slash, (strip_without_slash _ H).
Qed.

(** X7: when the comparison is total, the rows of the [dirs] bucket and
    of the unknowns bucket are ascending by name, those of the files
    bucket are ascending by the string form of the tuple, and the three
    blocks follow one another; every entry of a bucket has exactly one
    row in its block. *)
Theorem bucket_rows_sorted (dirs renderFiles lolwuts : list Entry) :
  (forall a b, localeCompare a b <= 0 \/ localeCompare b a <= 0) ->
  exists D F U,
    rowOrder dirs renderFiles lolwuts = (D ++ F ++ U)%list
    /\ Permutation dirs D /\ Permutation renderFiles F
    /\ Permutation lolwuts U
    /\ ascending byName D /\ ascending byToString F /\ ascending byName U.
Proof.
  intros Htotal.
  exists (JsArray.sort byName dirs), (JsArray.sort byToString renderFiles),
    (JsArray.sort byName lolwuts).
  split; [reflexivity|].
  repeat split; try apply sort_perm; apply sort_ascending; intros a b;
    apply Htotal.
Qed.

(** X8: the four headers are set exactly when the target has been
    stat'ed and read: they come first, carry the ETag and the
    modification time of the target directory itself, and stay set
    whatever the rest of the request does; a request that fails on the
    stat or on the read sets none. *)
Theorem headers_follow_directory_read (opts : Options) (req : Request)
    (decoded : string) :
  decodeURIComponent (pathname req) = Some decoded ->
  match stat fs (targetDir opts decoded), readdir fs (targetDir opts decoded)
  with
  | inr st, inr _ =>
      exists rest,
        trace (middleware opts req)
        = ([SetHeader "content-type" "text/html";
            SetHeader "etag" (etag st (weakEtags opts));
            SetHeader "last-modified" (toUTCString (mtime st));
            SetHeader "cache-control" (cache opts)] ++ rest)%list
        /\ count isSetHeader rest = 0%nat
  | _, _ => count isSetHeader (trace (middleware opts req)) = 0%nat
  end.
Proof.
  intros Hd.
  assert (Hfail : forall err,
             count isSetHeader [errorCall opts err] = 0%nat).
  { intros err. unfold errorCall. now destruct (handleError opts). }
  destruct (stat fs (targetDir opts decoded)) as [err|st] eqn:Hs.
  { destruct (validPath (targetDir opts decoded)) eqn:Hv.
    - rewrite (middleware_stat_failed _ _ _ _ Hd Hv Hs).
      first [ apply Hfail
            | destruct (readdir fs (targetDir opts decoded)); apply Hfail ].
    - rewrite (middleware_invalid_path _ _ _ Hd Hv).
      first [ reflexivity
            | destruct (readdir fs (targetDir opts decoded)); reflexivity ]. }
  destruct (readdir fs (targetDir opts decoded)) as [err|names] eqn:Hr.
  { rewrite (middleware_readdir_failed _ _ _ _ _ Hd Hs Hr). apply Hfail. }
  rewrite (middleware_listing _ _ _ _ _ Hd Hs Hr).
  destruct (sortFiles _ _) as [[lolwuts dirs] files].
  rewrite (afterSort_valid _ _ _ _ _ _ _ (stat_returned_valid _ _ Hs)).
  destruct (withParent opts (targetDir opts decoded) dirs) as [err|dirs'].
  - rewrite fail_trace. eexists. split; [reflexivity | apply Hfail].
  - unfold render.
    destruct (renderHtml req opts decoded dirs' files lolwuts
                (targetDir opts decoded));
      eexists; split; reflexivity.
Qed.

(** X9: the whole of a successful request.  When the target is stat'ed
    and read, the parent entry is settled without error, the request has
    a [host] header and every row can be written, the middleware sets the
    four headers, writes the head with status 200 once and ends the
    response once, with the opening of the page, the rows of the three
    buckets in their order and the closing; it makes no error call. *)
Theorem successful_listing (opts : Options) (req : Request)
    (decoded h : string) (st : Stats) (names : list string)
    (lolwuts dirs files dirs' : list Entry) :
  decodeURIComponent (pathname req) = Some decoded ->
  stat fs (targetDir opts decoded) = inr st ->
  readdir fs (targetDir opts decoded) = inr names ->
  sortFiles (targetDir opts decoded) (filterDotfiles opts names)
  = (lolwuts, dirs, files) ->
  withParent opts (targetDir opts decoded) dirs = inr dirs' ->
  host req = Some h ->
  Forall (rowWritable (targetDir opts decoded))
    (dirs' ++ files ++ lolwuts)%list ->
  exists foot,
    pageFoot req = Returned foot
    /\ middleware opts req
       = ((listingHeaders opts st
           ++ [WriteHead 200 "Content-Type" "text/html";
               EndBody (pageHead decoded
                          ++ rowsText req opts (targetDir opts decoded)
                               (rowOrder dirs' files lolwuts)
                          ++ foot)])%list,
          Returned tt)
    /\ successOutcome (trace (middleware opts req)).
Proof.
  intros Hd Hs Hr Hsort Hw Hh Hall.
  rewrite (middleware_listing _ _ _ _ _ Hd Hs Hr), Hsort.
  rewrite (afterSort_valid _ _ _ _ _ _ _ (stat_returned_valid _ _ Hs)), Hw.
  apply rowOrder_Forall in Hall.
  assert (Hfoot : exists foot, pageFoot req = Returned foot)
    by (unfold pageFoot; rewrite Hh; now eexists).
  destruct Hfoot as [foot Hfoot]. exists foot. split; [exact Hfoot|].
  assert (Hhtml : renderHtml req opts decoded dirs' files lolwuts
                    (targetDir opts decoded)
                  = Returned (pageHead decoded
                                ++ rowsText req opts (targetDir opts decoded)
                                     (rowOrder dirs' files lolwuts)
                                ++ foot)).
  { rewrite renderHtml_rowOrder, (forEachRow_returned _ _ _ _ Hall), Hfoot.
    now rewrite str_app_assoc. }
  rewrite (render_returned _ _ _ _ _ _ _ _ Hhtml).
  split; [reflexivity|].
  unfold successOutcome, trace. cbn [fst].
  destruct (listingHeaders_quiet opts st) as (Q1 & Q2 & Q3).
  split.
  - eexists (listingHeaders opts st), _. now repeat split.
  - now rewrite count_app, Q1.
Qed.

Lemma normalizeString_by_segments (p : string) (allow : bool) :
  Path.normalizeString p allow
  = JsString.join "/" (Path.normalizeSegs allow [] (Path.segments p)).
Proof.
  unfold Path.normalizeString, Path.segments.
  now rewrite normalizeSegs_skips_empty.
Qed.

Lemma resolve_trailing_slash (p : string) :
  p <> "" -> Path.resolve cwd [p ++ "/"] = Path.resolve cwd [p].
Proof.
  intros Hne. unfold Path.resolve. cbn [rev app Path.resolveScan].
  assert (E1 : String.eqb (p ++ "/") "" = false) by (now destruct p).
  assert (E2 : String.eqb p "" = false) by (now apply String.eqb_neq).
  assert (E3 : Path.isAbsolute (p ++ "/") = Path.isAbsolute p)
    by (destruct p; [contradiction | reflexivity]).
  rewrite E1, E2, E3.
  assert (Hsegs : Path.segments ((p ++ "/") ++ "/" ++ "")
                  = Path.segments (p ++ "/" ++ "")).
  { change ((p ++ "/") ++ "/" ++ "") with ((p ++ "/") ++ String "/" "").
    change (p ++ "/" ++ "") with (p ++ String "/" "").
    change (p ++ "/") with (p ++ String "/" "").
    now rewrite !segments_app_sep, app_nil_r. }
  assert (Hsegs2 : Path.segments (cwd ++ "/" ++ (p ++ "/") ++ "/" ++ "")
                   = Path.segments (cwd ++ "/" ++ p ++ "/" ++ "")).
  { change (cwd ++ "/" ++ (p ++ "/") ++ "/" ++ "")
      with (cwd ++ String "/" ((p ++ "/") ++ "/" ++ "")).
    change (cwd ++ "/" ++ p ++ "/" ++ "")
      with (cwd ++ String "/" (p ++ "/" ++ "")).
    now rewrite !segments_app_sep, Hsegs. }
  destruct (Path.isAbsolute p); [|destruct (String.eqb cwd "");
                                   [|destruct (Path.isAbsolute cwd)]];
    cbv beta iota zeta; rewrite !normalizeString_by_segments;
    now rewrite ?Hsegs, ?Hsegs2.
Qed.

Lemma dropCommon_same (l : list string) : Path.dropCommon l l = ([], []).
Proof.
  induction l as [|x l IH]; [reflexivity|].
  cbn [Path.dropCommon]. now rewrite String.eqb_refl.
Qed.

Lemma relative_trailing_slash (from p : string) :
  p <> "" -> Path.relative cwd from (p ++ "/") = Path.relative cwd from p.
Proof.
  intros Hne. unfold Path.relative.
  rewrite (resolve_trailing_slash _ Hne).
  destruct (String.eqb from (p ++ "/")) eqn:E1;
    destruct (String.eqb from p) eqn:E2; try reflexivity.
  - apply String.eqb_eq in E1. subst from.
    rewrite (resolve_trailing_slash _ Hne), dropCommon_same. reflexivity.
  - apply String.eqb_eq in E2. subst from.
    rewrite dropCommon_same. reflexivity.
Qed.

(** X10: the directory that is listed does not depend on a slash at the
    end of the request path: a non-empty path and the same path followed
    by a slash resolve to the same target. *)
Theorem target_ignores_trailing_slash (opts : Options) (decoded : string) :
  decoded <> "" ->
  targetDir opts (decoded ++ "/") = targetDir opts decoded.
Proof.
  intros Hne. unfold targetDir. now rewrite (relative_trailing_slash _ _ Hne).
Qed.
End ShowDir.

(* ================================================================== *)
(** ** The pipeline on the sample file systems *)

Abbreviation sample_middleware :=
  (middleware Sample.he_encode Sample.encodeURIComponent
     Sample.decodeURIComponent Sample.localeCompare Sample.sizeToString
     Sample.supportedIcons Sample.css Sample.etag Sample.toUTCString
     Sample.markerToString Sample.cwd).

Abbreviation sample_render :=
  (render Sample.he_encode Sample.encodeURIComponent Sample.localeCompare
     Sample.sizeToString Sample.supportedIcons Sample.css
     Sample.markerToString Sample.cwd).

Abbreviation sample_rowOf :=
  (rowOf Sample.he_encode Sample.encodeURIComponent Sample.sizeToString
     Sample.supportedIcons Sample.cwd).

Abbreviation sample_headers :=
  (listingHeaders Sample.etag Sample.toUTCString).

Lemma success_has_body (t : list Event) :
  successOutcome t -> count isEndBody t = 1%nat /\ count isWriteHead t = 1%nat.
Proof.
  intros [(pre & body & -> & Hw & He) _].
  rewrite !count_app, Hw, He. now split.
Qed.

Lemma no_outcome_excludes (t : list Event) :
  noOutcome t -> ~ successOutcome t /\ ~ errorOutcome t.
Proof.
  intros (He & Hw & Hb). split.
  - intros Hs. apply success_has_body in Hs as [Hs _]. congruence.
  - intros (H1 & _). congruence.
Qed.

Lemma error_outcome_excludes (t : list Event) :
  errorOutcome t -> ~ successOutcome t /\ ~ noOutcome t.
Proof.
  intros (He & Hw & Hb). split.
  - intros Hs. apply success_has_body in Hs as [Hs _]. congruence.
  - intros (H1 & _). congruence.
Qed.

(** C1, at the failing input: a request that carries no [host] header,
    for a directory that is stat'ed, read and classified without error,
    sets its four headers and then throws in [render] on
    [req.headers.host.endsWith]: no response, no error call -- neither of
    the two outcomes. *)
Theorem request_without_host_has_no_outcome :
  sample_middleware Sample.world (Sample.opts true false)
    (Sample.request None)
  = (sample_headers (Sample.opts true false) (Sample.dirStats 1700000000000),
     Threw (TypeError
              "Cannot read properties of undefined (reading 'endsWith')"))
  /\ noOutcome
       (trace (sample_middleware Sample.world (Sample.opts true false)
                 (Sample.request None)))
  /\ ~ successOutcome
         (trace (sample_middleware Sample.world (Sample.opts true false)
                   (Sample.request None)))
  /\ ~ errorOutcome
         (trace (sample_middleware Sample.world (Sample.opts true false)
                   (Sample.request None))).
Proof.
  assert (Hrun : sample_middleware Sample.world (Sample.opts true false)
                   (Sample.request None)
                 = (sample_headers (Sample.opts true false)
                      (Sample.dirStats 1700000000000),
                    Threw (TypeError
                      "Cannot read properties of undefined (reading 'endsWith')")))
    by (vm_compute; reflexivity).
  split; [exact Hrun|].
  assert (Hno : noOutcome
                  (trace (sample_middleware Sample.world
                            (Sample.opts true false) (Sample.request None)))).
  { rewrite Hrun. unfold noOutcome, trace. cbn [fst].
    apply listingHeaders_quiet. }
  split; [exact Hno|]. now apply no_outcome_excludes.
Qed.

(** The same directory asked for with a [host] header is answered once. *)
Lemma request_with_host_succeeds :
  successOutcome
    (trace (sample_middleware Sample.world (Sample.opts true false)
              (Sample.request (Some "localhost:8080")))).
Proof.
  destruct (sample_middleware Sample.world (Sample.opts true false)
              (Sample.request (Some "localhost:8080"))) as [t c] eqn:E.
  vm_compute in E. injection E as <- _.
  unfold successOutcome, trace. split; [|reflexivity].
  eexists (sample_headers (Sample.opts true false)
             (Sample.dirStats 1700000000000)), _.
  split; [vm_compute; reflexivity|]. split; reflexivity.
Qed.

(** Counterexample to C4 as stated: the request path [/%00] decodes to a
    target that holds a NUL.  The stat of the target fails -- the call
    throws -- and the request ends there with nothing written and no error
    call at all. *)
Lemma target_stat_throws_no_error_call :
  Sample.decodeURIComponent "/%00" = Some (String "/" (String Ascii.zero ""))
  /\ targetDir Sample.cwd (Sample.opts true false)
       (String "/" (String Ascii.zero ""))
     = "/srv/" ++ String Ascii.zero ""
  /\ validPath ("/srv/" ++ String Ascii.zero "") = false
  /\ stat Sample.world ("/srv/" ++ String Ascii.zero "")
     = inl "ERR_INVALID_ARG_VALUE"
  /\ sample_middleware Sample.world (Sample.opts true false)
       {| pathname := "/%00"; search := None;
          host := Some "localhost:8080" |}
     = ([], Threw (TypeError "ERR_INVALID_ARG_VALUE"))
  /\ count isErrorCall
       (trace (sample_middleware Sample.world (Sample.opts true false)
                 {| pathname := "/%00"; search := None;
                    host := Some "localhost:8080" |})) = 0%nat
  /\ ~ errorOutcome
         (trace (sample_middleware Sample.world (Sample.opts true false)
                   {| pathname := "/%00"; search := None;
                      host := Some "localhost:8080" |})).
Proof.
  assert (Hrun : sample_middleware Sample.world (Sample.opts true false)
                   {| pathname := "/%00"; search := None;
                      host := Some "localhost:8080" |}
                 = ([], Threw (TypeError "ERR_INVALID_ARG_VALUE")))
    by (vm_compute; reflexivity).
  repeat (split; [first [exact Hrun | vm_compute; reflexivity]|]).
  rewrite Hrun. intros (He & _). discriminate.
Qed.

(** The same without error propagation: no [next()] either. *)
Example target_stat_throws_no_next :
  sample_middleware Sample.world (Sample.opts false false)
    {| pathname := "/a%00b/"; search := None;
       host := Some "localhost:8080" |}
  = ([], Threw (TypeError "ERR_INVALID_ARG_VALUE")).
Proof. vm_compute. reflexivity. Qed.

(** Witness of C4: the stat of [/srv] fails under [/srv/a]. *)
Lemma fatal_error_single_call_witness :
  Sample.decodeURIComponent (pathname (Sample.request (Some "localhost:8080")))
  = Some "/a/"
  /\ (exists st names,
        stat Sample.worldParentFails
          (targetDir Sample.cwd (Sample.opts true false) "/a/") = inr st
        /\ readdir Sample.worldParentFails
             (targetDir Sample.cwd (Sample.opts true false) "/a/") = inr names
        /\ parentInRoot Sample.cwd (Sample.opts true false)
             (targetDir Sample.cwd (Sample.opts true false) "/a/") = true
        /\ stat Sample.worldParentFails
             (Path.join [targetDir Sample.cwd (Sample.opts true false) "/a/";
                         ".."]) = inl "EIO")
  /\ errorOutcome
       (trace (sample_middleware Sample.worldParentFails
                 (Sample.opts true false)
                 (Sample.request (Some "localhost:8080")))).
Proof.
  assert (H1 : Sample.decodeURIComponent
                 (pathname (Sample.request (Some "localhost:8080")))
               = Some "/a/") by reflexivity.
  assert (H2 : exists st names,
        stat Sample.worldParentFails
          (targetDir Sample.cwd (Sample.opts true false) "/a/") = inr st
        /\ readdir Sample.worldParentFails
             (targetDir Sample.cwd (Sample.opts true false) "/a/") = inr names
        /\ parentInRoot Sample.cwd (Sample.opts true false)
             (targetDir Sample.cwd (Sample.opts true false) "/a/") = true
        /\ stat Sample.worldParentFails
             (Path.join [targetDir Sample.cwd (Sample.opts true false) "/a/";
                         ".."]) = inl "EIO").
  { exists (Sample.dirStats 1700000000000), ["a.txt"%string].
    repeat split; vm_compute; reflexivity. }
  split; [exact H1|]. split; [exact H2|].
  destruct (fatal_error_single_call Sample.he_encode Sample.encodeURIComponent
              Sample.decodeURIComponent Sample.localeCompare
              Sample.sizeToString Sample.supportedIcons Sample.css
              Sample.etag Sample.toUTCString Sample.markerToString
              Sample.cwd Sample.worldParentFails (Sample.opts true false)
              (Sample.request (Some "localhost:8080")) "/a/" "EIO" H1
              (or_intror (or_intror H2)))
    as (headers & _ & _ & Hout).
  exact Hout.
Defined.

(** Witness of C5: [link.url] in the sample directory. *)
Lemma shortcut_row_witness :
  isDir ("link.url", Some (Sample.fileStats 20 1700000005000)) = false
  /\ JsString.endsWith "link.url" ".url" = true
  /\ readFileSync Sample.world (Path.resolve Sample.cwd ["/srv/a"; "link.url"])
     = inr ("https://example.com" ++ nl)
  /\ exists base r,
       "link.url" = base ++ ".url"
       /\ sample_rowOf Sample.world (Sample.request (Some "localhost:8080"))
            (Sample.opts true false) "/srv/a"
            ("link.url", Some (Sample.fileStats 20 1700000005000))
          = Returned r
       /\ href r = "https://example.com"
       /\ displayName r = Sample.he_encode base
       /\ external r = true
       /\ filesize r = "-".
Proof.
  assert (H1 : isDir ("link.url", Some (Sample.fileStats 20 1700000005000))
               = false) by reflexivity.
  assert (H2 : JsString.endsWith "link.url" ".url" = true) by reflexivity.
  assert (H3 : readFileSync Sample.world
                 (Path.resolve Sample.cwd ["/srv/a"; "link.url"])
               = inr ("https://example.com" ++ nl)) by reflexivity.
  repeat (split; [assumption|]).
  destruct (shortcut_row Sample.he_encode Sample.encodeURIComponent
              Sample.sizeToString Sample.supportedIcons Sample.cwd
              Sample.world (Sample.request (Some "localhost:8080"))
              (Sample.opts true false) "/srv/a" "link.url"
              (Some (Sample.fileStats 20 1700000005000))
              ("https://example.com" ++ nl) H1 H2 H3)
    as (base & r & Hn & Hrow & Hh & Hdn & He & Hf & _).
  exists base, r. repeat split; assumption.
Defined.

(** The row of [link.url], computed. *)
Example shortcut_row_example :
  sample_rowOf Sample.world (Sample.request (Some "localhost:8080"))
    (Sample.opts true false) "/srv/a"
    ("link.url", Some (Sample.fileStats 20 1700000005000))
  = Returned {| iconClass := "icon-_page";
                external := true;
                href := "https://example.com";
                displayName := "link";
                lastModified := "2023-11-14 22:13:25";
                filesize := "-" |}.
Proof. vm_compute. reflexivity. Qed.

(** Witness of C7: the row of [a.txt]. *)
Lemma last_modified_cell_witness :
  sample_rowOf Sample.world (Sample.request (Some "localhost:8080"))
    (Sample.opts true false) "/srv/a"
    ("a.txt", Some (Sample.fileStats 12 1700000001000))
  = Returned {| iconClass := "icon-txt";
                external := false;
                href := "/a/a.txt";
                displayName := "a.txt";
                lastModified := "2023-11-14 22:13:21";
                filesize := "12B" |}
  /\ "2023-11-14 22:13:21"
     = convertDateTime (MDate (Some 1700000001000)).
Proof.
  assert (H : sample_rowOf Sample.world
                (Sample.request (Some "localhost:8080"))
                (Sample.opts true false) "/srv/a"
                ("a.txt", Some (Sample.fileStats 12 1700000001000))
              = Returned {| iconClass := "icon-txt";
                            external := false;
                            href := "/a/a.txt";
                            displayName := "a.txt";
                            lastModified := "2023-11-14 22:13:21";
                            filesize := "12B" |})
    by (vm_compute; reflexivity).
  split; [exact H|].
  exact (proj1 (last_modified_cell Sample.he_encode Sample.encodeURIComponent
                  Sample.sizeToString Sample.supportedIcons Sample.cwd
                  Sample.world _ _ _ _ _ H)).
Defined.

(** The placeholder, computed: an entry whose stat failed, and an invalid
    Date. *)
Example last_modified_placeholder_example :
  convertDateTime (mtimeOf None)
  = "&nbsp;&nbsp;&nbsp;&nbsp;&nbsp;&nbsp;&nbsp;&nbsp;&nbsp;-&nbsp;&nbsp;&nbsp;&nbsp;&nbsp;&nbsp;&nbsp;&nbsp;&nbsp;"
  /\ convertDateTime (MDate None) = convertDateTime MUndefined
  /\ convertDateTime (MDate (Some (JsDate.maxTime + 1)))
     = convertDateTime MUndefined.
Proof. repeat split. Qed.

(** Witness of C9: [gone.url] cannot be read. *)
Lemma unreadable_shortcut_aborts_witness :
  In ("gone.url", Some (Sample.fileStats 20 1700000005000))
    ([("..", Some (Sample.dirStats 1600000000000))]
     ++ [("a.txt", Some (Sample.fileStats 12 1700000001000));
         ("gone.url", Some (Sample.fileStats 20 1700000005000))]
     ++ [])%list
  /\ isDir ("gone.url", Some (Sample.fileStats 20 1700000005000)) = false
  /\ JsString.endsWith "gone.url" ".url" = true
  /\ readFileSync Sample.worldBrokenShortcut
       (Path.resolve Sample.cwd ["/srv/a"; "gone.url"]) = inl "ENOENT"
  /\ exists err',
       sample_render Sample.worldBrokenShortcut
         (Sample.request (Some "localhost:8080")) (Sample.opts true false)
         "/a/"
         [("..", Some (Sample.dirStats 1600000000000))]
         [("a.txt", Some (Sample.fileStats 12 1700000001000));
          ("gone.url", Some (Sample.fileStats 20 1700000005000))]
         [] "/srv/a"
       = ([], Threw (FsError err')).
Proof.
  assert (H1 : In ("gone.url", Some (Sample.fileStats 20 1700000005000))
                 ([("..", Some (Sample.dirStats 1600000000000))]
                  ++ [("a.txt", Some (Sample.fileStats 12 1700000001000));
                      ("gone.url", Some (Sample.fileStats 20 1700000005000))]
                  ++ [])%list)
    by (simpl; auto).
  assert (H2 : isDir ("gone.url", Some (Sample.fileStats 20 1700000005000))
               = false) by reflexivity.
  assert (H3 : JsString.endsWith "gone.url" ".url" = true) by reflexivity.
  assert (H4 : readFileSync Sample.worldBrokenShortcut
                 (Path.resolve Sample.cwd ["/srv/a"; "gone.url"])
               = inl "ENOENT") by reflexivity.
  repeat (split; [assumption|]).
  exact (proj2 (unreadable_shortcut_aborts Sample.he_encode
                  Sample.encodeURIComponent Sample.localeCompare
                  Sample.sizeToString Sample.supportedIcons Sample.css
                  Sample.markerToString Sample.cwd Sample.worldBrokenShortcut
                  (Sample.request (Some "localhost:8080"))
                  (Sample.opts true false) "/a/" "/srv/a" _ _ _
                  ("gone.url", Some (Sample.fileStats 20 1700000005000))
                  "ENOENT" H1 H2 H3 H4)).
Defined.

(** The whole request for the directory of [gone.url]: headers, then the
    exception of the read. *)
Example unreadable_shortcut_request_example :
  sample_middleware Sample.worldBrokenShortcut (Sample.opts true false)
    (Sample.request (Some "localhost:8080"))
  = (sample_headers (Sample.opts true false) (Sample.dirStats 1700000000000),
     Threw (FsError "ENOENT")).
Proof. vm_compute. reflexivity. Qed.

(** Counterexample to C8 as stated: no [host] header, the target is
    stat'ed, read and classified, yet the request ends in an error call,
    because the stat of the parent fails before [render] is reached. *)
Lemma missing_host_parent_stat_fails :
  host (Sample.request None) = None
  /\ targetDir Sample.cwd (Sample.opts true false) "/a/" = "/srv/a"
  /\ stat Sample.worldParentFails "/srv/a"
     = inr (Sample.dirStats 1700000000000)
  /\ readdir Sample.worldParentFails "/srv/a" = inr ["a.txt"]
  /\ sortFiles Sample.worldParentFails "/srv/a" ["a.txt"]
     = ([], [], [("a.txt", Some (Sample.fileStats 12 1700000001000))])
  /\ sample_middleware Sample.worldParentFails (Sample.opts true false)
       (Sample.request None)
     = ((sample_headers (Sample.opts true false)
           (Sample.dirStats 1700000000000) ++ [Status500 "EIO"])%list,
        Returned tt)
  /\ errorOutcome
       (trace (sample_middleware Sample.worldParentFails
                 (Sample.opts true false) (Sample.request None)))
  /\ ~ noOutcome
         (trace (sample_middleware Sample.worldParentFails
                   (Sample.opts true false) (Sample.request None))).
Proof.
  assert (Hrun : sample_middleware Sample.worldParentFails
                   (Sample.opts true false) (Sample.request None)
                 = ((sample_headers (Sample.opts true false)
                       (Sample.dirStats 1700000000000)
                       ++ [Status500 "EIO"])%list,
                    Returned tt)) by (vm_compute; reflexivity).
  assert (Herr : errorOutcome
                   (trace (sample_middleware Sample.worldParentFails
                             (Sample.opts true false) (Sample.request None)))).
  { rewrite Hrun. unfold errorOutcome, trace. cbn [fst]. repeat split. }
  repeat (split; [first [reflexivity | exact Hrun | exact Herr]|]).
  now apply error_outcome_excludes.
Qed.

(** Witness of C8 as amended: the sample directory, whose parent can be
    stat'ed. *)
Lemma missing_host_render_throws_witness :
  host (Sample.request None) = None
  /\ Sample.decodeURIComponent (pathname (Sample.request None)) = Some "/a/"
  /\ stat Sample.world (targetDir Sample.cwd (Sample.opts true false) "/a/")
     = inr (Sample.dirStats 1700000000000)
  /\ readdir Sample.world
       (targetDir Sample.cwd (Sample.opts true false) "/a/")
     = inr [".env"; "a.txt"; "a"; "a b"; "png"; "link.url"; "sub"; "ghost"]
  /\ (parentInRoot Sample.cwd (Sample.opts true false)
        (targetDir Sample.cwd (Sample.opts true false) "/a/") = true ->
      exists s,
        stat Sample.world
          (Path.join [targetDir Sample.cwd (Sample.opts true false) "/a/";
                      ".."]) = inr s)
  /\ exists e,
       sample_middleware Sample.world (Sample.opts true false)
         (Sample.request None)
       = (sample_headers (Sample.opts true false)
            (Sample.dirStats 1700000000000), Threw e)
       /\ noOutcome
            (trace (sample_middleware Sample.world (Sample.opts true false)
                      (Sample.request None))).
Proof.
  assert (H1 : host (Sample.request None) = None) by reflexivity.
  assert (H2 : Sample.decodeURIComponent (pathname (Sample.request None))
               = Some "/a/") by reflexivity.
  assert (H3 : stat Sample.world
                 (targetDir Sample.cwd (Sample.opts true false) "/a/")
               = inr (Sample.dirStats 1700000000000))
    by (vm_compute; reflexivity).
  assert (H4 : readdir Sample.world
                 (targetDir Sample.cwd (Sample.opts true false) "/a/")
               = inr [".env"; "a.txt"; "a"; "a b"; "png"; "link.url"; "sub";
                      "ghost"]%string)
    by (vm_compute; reflexivity).
  assert (H5 : parentInRoot Sample.cwd (Sample.opts true false)
                 (targetDir Sample.cwd (Sample.opts true false) "/a/") = true ->
               exists s,
                 stat Sample.world
                   (Path.join
                      [targetDir Sample.cwd (Sample.opts true false) "/a/";
                       ".."]) = inr s).
  { intros _. exists (Sample.dirStats 1600000000000).
    vm_compute. reflexivity. }
  repeat (split; [assumption|]).
  destruct (missing_host_render_throws Sample.he_encode
              Sample.encodeURIComponent Sample.decodeURIComponent
              Sample.localeCompare Sample.sizeToString Sample.supportedIcons
              Sample.css Sample.etag Sample.toUTCString Sample.markerToString
              Sample.cwd Sample.world (Sample.opts true false)
              (Sample.request None) "/a/" _ _ H1 H2 H3 H4 H5)
    as (e & Hrun & Hno & _).
  exists e. now split.
Defined.

(** Counterexample to C2 as stated: the parent of [/srv/a] lies under the
    root [/srv], but its stat fails, so no [..] entry is put in the
    bucket; the request ends in the error call. *)
Lemma parent_within_root_not_added :
  resolvedRoot Sample.cwd (Sample.opts true false) = "/srv"
  /\ Path.resolve Sample.cwd ["/srv/a"; ".."] = "/srv"
  /\ parentInRoot Sample.cwd (Sample.opts true false) "/srv/a" = true
  /\ withParent Sample.cwd Sample.worldParentFails (Sample.opts true false)
       "/srv/a" [] = inl "EIO"
  /\ (forall s dirs,
        withParent Sample.cwd Sample.worldParentFails
          (Sample.opts true false) "/srv/a" dirs
        <> inr ((("..", Some s) : Entry) :: dirs)).
Proof.
  repeat (split; [reflexivity|]).
  intros s dirs. unfold withParent.
  change (parentInRoot Sample.cwd (Sample.opts true false) "/srv/a")
    with true.
  change (stat Sample.worldParentFails (Path.join ["/srv/a"; ".."]))
    with (@inl Errno Stats "EIO").
  discriminate.
Qed.

(** The test of line 189 compares text: under the root [/srv] the parent
    [/srvx] of [/srvx/a] passes it as well. *)
Example parent_test_is_textual :
  parentInRoot Sample.cwd (Sample.opts true false) "/srvx/a" = true
  /\ Path.resolve Sample.cwd ["/srvx/a"; ".."] = "/srvx".
Proof. split; reflexivity. Qed.

(** The rule on the sample directory: [..] carries the stat of [/srv]. *)
Example parent_entry_example :
  withParent Sample.cwd Sample.world (Sample.opts true false) "/srv/a" []
  = inr [("..", Some (Sample.dirStats 1600000000000))]
  /\ withParent Sample.cwd Sample.world (Sample.opts true false) "/srv" []
     = inr [].
Proof. split; reflexivity. Qed.

(** Witness of C3's failing input, under comparison by code units. *)
Lemma files_bucket_order_witness :
  0 < Sample.localeCompare "a,[object Object]" "a b,[object Object]"
  /\ 0 < Sample.localeCompare "a b" "a"
  /\ rowOrder Sample.localeCompare Sample.markerToString []
       [("a", Some (Sample.fileStats 1 1700000002000));
        ("a b", Some (Sample.fileStats 2 1700000003000))] []
     = [("a b", Some (Sample.fileStats 2 1700000003000));
        ("a", Some (Sample.fileStats 1 1700000002000))].
Proof.
  assert (H1 : 0 < Sample.localeCompare "a,[object Object]"
                     "a b,[object Object]") by reflexivity.
  assert (H2 : 0 < Sample.localeCompare "a b" "a") by reflexivity.
  repeat (split; [assumption|]).
  exact (proj1 (files_bucket_order_by_tuple_string Sample.he_encode
                  Sample.encodeURIComponent Sample.localeCompare
                  Sample.sizeToString Sample.supportedIcons Sample.css
                  Sample.markerToString Sample.cwd Sample.world
                  (Sample.request (Some "localhost:8080"))
                  (Sample.opts true false) "/a/" "/srv/a" _ _ H1 H2)).
Defined.

(** The classification of the sample directory, dotfiles hidden. *)
Example sortFiles_example :
  sortFiles Sample.world "/srv/a"
    (filterDotfiles (Sample.opts true false)
       [".env"; "a.txt"; "a"; "a b"; "png"; "link.url"; "sub"; "ghost"])
  = ([("ghost", None)],
     [("sub", Some (Sample.dirStats 1700000006000))],
     [("a.txt", Some (Sample.fileStats 12 1700000001000));
      ("a", Some (Sample.fileStats 1 1700000002000));
      ("a b", Some (Sample.fileStats 2 1700000003000));
      ("png", Some (Sample.fileStats 3 1700000004000));
      ("link.url", Some (Sample.fileStats 20 1700000005000))]).
Proof. vm_compute. reflexivity. Qed.

(** The order of the rows of the sample directory: [a b] is written
    before [a]. *)
Example row_order_example :
  map fst
    (rowOrder Sample.localeCompare Sample.markerToString
       [("..", Some (Sample.dirStats 1600000000000));
        ("sub", Some (Sample.dirStats 1700000006000))]
       [("a.txt", Some (Sample.fileStats 12 1700000001000));
        ("a", Some (Sample.fileStats 1 1700000002000));
        ("a b", Some (Sample.fileStats 2 1700000003000));
        ("png", Some (Sample.fileStats 3 1700000004000));
        ("link.url", Some (Sample.fileStats 20 1700000005000))]
       [("ghost", None)])
  = [".."; "sub"; "a b"; "a"; "a.txt"; "link.url"; "png"; "ghost"]%string.
Proof. vm_compute. reflexivity. Qed.

(** The built-ins on known values. *)
Example path_examples :
  Path.resolve "/home/node" ["/srv/a"; ".."] = "/srv"
  /\ Path.resolve "/home/node" ["/srv"; ".."] = "/"
  /\ Path.resolve "/home/node" ["./public"] = "/home/node/public"
  /\ Path.join ["/srv/a"; ".."] = "/srv"
  /\ Path.relative "/home/node" "/" "/a/b/" = "a/b"
  /\ Path.relative "/home/node" "/base" "/srvx/a" = "../srvx/a"
  /\ Path.normalize "/srv//a/./b/../" = "/srv/a/".
Proof. repeat split. Qed.

Example date_examples :
  JsDate.toISOString (Some 0) = Some "1970-01-01T00:00:00.000Z"
  /\ JsDate.toISOString (Some (-1)) = Some "1969-12-31T23:59:59.999Z"
  /\ JsDate.toISOString (Some 951782400000) = Some "2000-02-29T00:00:00.000Z"
  /\ JsDate.toISOString (Some 1700000000000)
     = Some "2023-11-14T22:13:20.000Z"
  /\ JsDate.toISOString (Some JsDate.maxTime)
     = Some "+275760-09-13T00:00:00.000Z"
  /\ JsDate.toISOString (Some (- JsDate.maxTime))
     = Some "-271821-04-20T00:00:00.000Z"
  /\ JsDate.toISOString None = None.
Proof. repeat split. Qed.

Example string_examples :
  JsString.split "." "a.tar.gz" = ["a"; "tar"; "gz"]%string
  /\ JsString.split "." "png" = ["png"]%string
  /\ JsString.split "." "a." = ["a"; ""]%string
  /\ JsString.trim ("  https://example.com" ++ nl) = "https://example.com"
  /\ JsString.replace "??k" "0B" "??k" = "0B"
  /\ JsString.replace "T" " " "2023-11-14T22:13:20" = "2023-11-14 22:13:20"
  /\ JsString.stripTrailingSlash "/a/b/" = "/a/b"
  /\ JsString.endsWith "link.url" ".url" = true
  /\ JsString.endsWith "url" ".url" = false.
Proof. repeat split. Qed.

(* ================================================================== *)
(** ** The further facts on the sample file systems *)

Lemma sample_localeCompare_total (a : string) :
  forall b, Sample.localeCompare a b <= 0 \/ Sample.localeCompare b a <= 0.
Proof.
  induction a as [|x a IH]; intros [|y b]; cbn [Sample.localeCompare];
    try (left; lia); try (right; lia).
  rewrite (Nat.compare_antisym (nat_of_ascii x) (nat_of_ascii y)).
  destruct (nat_of_ascii x ?= nat_of_ascii y)%nat; cbn [CompOpp];
    [apply IH | left; lia | right; lia].
Qed.

(** Witness of X2: [/zz] does not exist under the root. *)
Lemma error_call_iff_failure_witness :
  Sample.decodeURIComponent "/zz" = Some "/zz"
  /\ validPath (targetDir Sample.cwd (Sample.opts true false) "/zz") = true
  /\ stat Sample.world (targetDir Sample.cwd (Sample.opts true false) "/zz")
     = inl "ENOENT"
  /\ errorOutcome
       (trace (sample_middleware Sample.world (Sample.opts true false)
                 {| pathname := "/zz"; search := None;
                    host := Some "localhost:8080" |})).
Proof.
  assert (H1 : Sample.decodeURIComponent "/zz" = Some "/zz") by reflexivity.
  assert (H2 : stat Sample.world
                 (targetDir Sample.cwd (Sample.opts true false) "/zz")
               = inl "ENOENT") by (vm_compute; reflexivity).
  assert (H3 : validPath
                 (targetDir Sample.cwd (Sample.opts true false) "/zz")
               = true) by (vm_compute; reflexivity).
  repeat (split; [assumption|]).
  apply (proj2 (error_call_iff_failure Sample.he_encode
                  Sample.encodeURIComponent Sample.decodeURIComponent
                  Sample.localeCompare Sample.sizeToString
                  Sample.supportedIcons Sample.css Sample.etag
                  Sample.toUTCString Sample.markerToString Sample.cwd
                  Sample.world (Sample.opts true false)
                  {| pathname := "/zz"; search := None;
                     host := Some "localhost:8080" |} "/zz" H1)).
  left. split; [exact H3 | now exists "ENOENT"%string].
Defined.

(** Witness of X4: dot segments in the request path cannot climb above
    the root. *)
Lemma target_stays_under_root_witness :
  Path.isAbsolute Sample.cwd = true
  /\ baseDir (Sample.opts true false) = "/"
  /\ targetDir Sample.cwd (Sample.opts true false) "/a/../../../etc/passwd"
     = "/srv/etc/passwd"
  /\ exists below,
       Path.segments
         (targetDir Sample.cwd (Sample.opts true false)
            "/a/../../../etc/passwd")
       = (Path.segments (resolvedRoot Sample.cwd (Sample.opts true false))
          ++ below)%list
       /\ JsString.startsWith
            (targetDir Sample.cwd (Sample.opts true false)
               "/a/../../../etc/passwd")
            (resolvedRoot Sample.cwd (Sample.opts true false)) = true.
Proof.
  assert (H1 : Path.isAbsolute Sample.cwd = true) by reflexivity.
  assert (H2 : baseDir (Sample.opts true false) = "/") by reflexivity.
  repeat (split; [first [assumption | reflexivity]|]).
  destruct (target_stays_under_root Sample.cwd (Sample.opts true false)
              "/a/../../../etc/passwd" H1 H2) as (below & _ & Hs & Hp).
  exists below. now split.
Defined.

(** Witness of X5: [/srv/a] lies below the root [/srv]. *)
Lemma parent_test_by_depth_witness :
  Path.isAbsolute Sample.cwd = true
  /\ baseDir (Sample.opts true false) = "/"
  /\ Path.segments (targetDir Sample.cwd (Sample.opts true false) "/a/")
     <> Path.segments (resolvedRoot Sample.cwd (Sample.opts true false))
  /\ parentInRoot Sample.cwd (Sample.opts true false)
       (targetDir Sample.cwd (Sample.opts true false) "/a/") = true.
Proof.
  assert (H1 : Path.isAbsolute Sample.cwd = true) by reflexivity.
  assert (H2 : baseDir (Sample.opts true false) = "/") by reflexivity.
  assert (H3 : Path.segments
                 (targetDir Sample.cwd (Sample.opts true false) "/a/")
               <> Path.segments
                    (resolvedRoot Sample.cwd (Sample.opts true false)))
    by (vm_compute; discriminate).
  repeat (split; [assumption|]).
  exact (proj1 (parent_test_by_depth Sample.cwd (Sample.opts true false)
                  "/a/" H1 H2) H3).
Defined.

(** Witness of X6: the row of [a.txt] under [/a] and under [/a/]. *)
Lemma row_ignores_trailing_slash_witness :
  JsString.endsWith "/a" "/" = false
  /\ sample_rowOf Sample.world
       {| pathname := "/a" ++ "/"; search := None;
          host := Some "localhost:8080" |}
       (Sample.opts true false) "/srv/a"
       ("a.txt", Some (Sample.fileStats 12 1700000001000))
     = sample_rowOf Sample.world
         {| pathname := "/a"; search := None;
            host := Some "localhost:8080" |}
         (Sample.opts true false) "/srv/a"
         ("a.txt", Some (Sample.fileStats 12 1700000001000)).
Proof.
  assert (H1 : JsString.endsWith "/a" "/" = false) by reflexivity.
  split; [exact H1|].
  exact (row_ignores_trailing_slash Sample.he_encode
           Sample.encodeURIComponent Sample.sizeToString
           Sample.supportedIcons Sample.cwd Sample.world
           (Sample.opts true false) "/srv/a" "/a" None
           (Some "localhost:8080")
           ("a.txt", Some (Sample.fileStats 12 1700000001000)) H1).
Defined.

(** Witness of X7: comparison by code units is total. *)
Lemma bucket_rows_sorted_witness :
  (forall a b,
      Sample.localeCompare a b <= 0 \/ Sample.localeCompare b a <= 0)
  /\ exists D F U,
       rowOrder Sample.localeCompare Sample.markerToString
         [("sub", Some (Sample.dirStats 1700000006000));
          ("..", Some (Sample.dirStats 1600000000000))]
         [("png", Some (Sample.fileStats 3 1700000004000));
          ("a.txt", Some (Sample.fileStats 12 1700000001000))]
         [("ghost", None)]
       = (D ++ F ++ U)%list
       /\ ascending (byName Sample.localeCompare) D
       /\ ascending (byName Sample.localeCompare) U.
Proof.
  split; [exact sample_localeCompare_total|].
  destruct (bucket_rows_sorted Sample.localeCompare Sample.markerToString
              [("sub", Some (Sample.dirStats 1700000006000));
               ("..", Some (Sample.dirStats 1600000000000))]
              [("png", Some (Sample.fileStats 3 1700000004000));
               ("a.txt", Some (Sample.fileStats 12 1700000001000))]
              [("ghost", None)] sample_localeCompare_total)
    as (D & F & U & Heq & _ & _ & _ & HD & _ & HU).
  exists D, F, U. now repeat split.
Defined.

(** Witness of X8: the headers of the sample directory. *)
Lemma headers_follow_directory_read_witness :
  Sample.decodeURIComponent (pathname (Sample.request None)) = Some "/a/"
  /\ match stat Sample.world
             (targetDir Sample.cwd (Sample.opts true false) "/a/"),
           readdir Sample.world
             (targetDir Sample.cwd (Sample.opts true false) "/a/")
     with
     | inr st, inr _ =>
         exists rest,
           trace (sample_middleware Sample.world (Sample.opts true false)
                    (Sample.request None))
           = ([SetHeader "content-type" "text/html";
               SetHeader "etag"
                 (Sample.etag st (weakEtags (Sample.opts true false)));
               SetHeader "last-modified" (Sample.toUTCString (mtime st));
               SetHeader "cache-control" (cache (Sample.opts true false))]
              ++ rest)%list
           /\ count isSetHeader rest = 0%nat
     | _, _ =>
         count isSetHeader
           (trace (sample_middleware Sample.world (Sample.opts true false)
                     (Sample.request None))) = 0%nat
     end.
Proof.
  assert (H1 : Sample.decodeURIComponent (pathname (Sample.request None))
               = Some "/a/") by reflexivity.
  split; [exact H1|].
  exact (headers_follow_directory_read Sample.he_encode
           Sample.encodeURIComponent Sample.decodeURIComponent
           Sample.localeCompare Sample.sizeToString Sample.supportedIcons
           Sample.css Sample.etag Sample.toUTCString Sample.markerToString
           Sample.cwd Sample.world (Sample.opts true false)
           (Sample.request None) "/a/" H1).
Defined.

(** Witness of X10: [/a] and [/a/]. *)
Lemma target_ignores_trailing_slash_witness :
  "/a"%string <> ""%string
  /\ targetDir Sample.cwd (Sample.opts true false) ("/a" ++ "/")
     = targetDir Sample.cwd (Sample.opts true false) "/a".
Proof.
  assert (H1 : "/a"%string <> ""%string) by discriminate.
  split; [exact H1|].
  exact (target_ignores_trailing_slash Sample.cwd (Sample.opts true false)
           "/a" H1).
Defined.

(** Witness of X9: the sample directory, asked for with a [host]
    header. *)
Lemma successful_listing_witness :
  Sample.decodeURIComponent
    (pathname (Sample.request (Some "localhost:8080"))) = Some "/a/"
  /\ stat Sample.world (targetDir Sample.cwd (Sample.opts true false) "/a/")
     = inr (Sample.dirStats 1700000000000)
  /\ readdir Sample.world
       (targetDir Sample.cwd (Sample.opts true false) "/a/")
     = inr [".env"; "a.txt"; "a"; "a b"; "png"; "link.url"; "sub"; "ghost"]
  /\ sortFiles Sample.world
       (targetDir Sample.cwd (Sample.opts true false) "/a/")
       (filterDotfiles (Sample.opts true false)
          [".env"; "a.txt"; "a"; "a b"; "png"; "link.url"; "sub"; "ghost"])
     = ([("ghost", None)],
        [("sub", Some (Sample.dirStats 1700000006000))],
        [("a.txt", Some (Sample.fileStats 12 1700000001000));
         ("a", Some (Sample.fileStats 1 1700000002000));
         ("a b", Some (Sample.fileStats 2 1700000003000));
         ("png", Some (Sample.fileStats 3 1700000004000));
         ("link.url", Some (Sample.fileStats 20 1700000005000))])
  /\ withParent Sample.cwd Sample.world (Sample.opts true false)
       (targetDir Sample.cwd (Sample.opts true false) "/a/")
       [("sub", Some (Sample.dirStats 1700000006000))]
     = inr [("..", Some (Sample.dirStats 1600000000000));
            ("sub", Some (Sample.dirStats 1700000006000))]
  /\ host (Sample.request (Some "localhost:8080")) = Some "localhost:8080"
  /\ Forall
       (rowWritable Sample.cwd Sample.world
          (targetDir Sample.cwd (Sample.opts true false) "/a/"))
       ([("..", Some (Sample.dirStats 1600000000000));
         ("sub", Some (Sample.dirStats 1700000006000))]
        ++ [("a.txt", Some (Sample.fileStats 12 1700000001000));
            ("a", Some (Sample.fileStats 1 1700000002000));
            ("a b", Some (Sample.fileStats 2 1700000003000));
            ("png", Some (Sample.fileStats 3 1700000004000));
            ("link.url", Some (Sample.fileStats 20 1700000005000))]
        ++ [("ghost", None)])%list
  /\ successOutcome
       (trace (sample_middleware Sample.world (Sample.opts true false)
                 (Sample.request (Some "localhost:8080")))).
Proof.
  assert (H1 : Sample.decodeURIComponent
                 (pathname (Sample.request (Some "localhost:8080")))
               = Some "/a/") by reflexivity.
  assert (H2 : stat Sample.world
                 (targetDir Sample.cwd (Sample.opts true false) "/a/")
               = inr (Sample.dirStats 1700000000000))
    by (vm_compute; reflexivity).
  assert (H3 : readdir Sample.world
                 (targetDir Sample.cwd (Sample.opts true false) "/a/")
               = inr [".env"; "a.txt"; "a"; "a b"; "png"; "link.url"; "sub";
                      "ghost"]%string)
    by (vm_compute; reflexivity).
  assert (H4 : sortFiles Sample.world
                 (targetDir Sample.cwd (Sample.opts true false) "/a/")
                 (filterDotfiles (Sample.opts true false)
                    [".env"; "a.txt"; "a"; "a b"; "png"; "link.url"; "sub";
                     "ghost"])
               = ([("ghost", None)],
                  [("sub", Some (Sample.dirStats 1700000006000))],
                  [("a.txt", Some (Sample.fileStats 12 1700000001000));
                   ("a", Some (Sample.fileStats 1 1700000002000));
                   ("a b", Some (Sample.fileStats 2 1700000003000));
                   ("png", Some (Sample.fileStats 3 1700000004000));
                   ("link.url", Some (Sample.fileStats 20 1700000005000))]))
    by (vm_compute; reflexivity).
  assert (H5 : withParent Sample.cwd Sample.world (Sample.opts true false)
                 (targetDir Sample.cwd (Sample.opts true false) "/a/")
                 [("sub", Some (Sample.dirStats 1700000006000))]
               = inr [("..", Some (Sample.dirStats 1600000000000));
                      ("sub", Some (Sample.dirStats 1700000006000))])
    by (vm_compute; reflexivity).
  assert (H6 : host (Sample.request (Some "localhost:8080"))
               = Some "localhost:8080") by reflexivity.
  assert (H7 : Forall
                 (rowWritable Sample.cwd Sample.world
                    (targetDir Sample.cwd (Sample.opts true false) "/a/"))
                 ([("..", Some (Sample.dirStats 1600000000000));
                   ("sub", Some (Sample.dirStats 1700000006000))]
                  ++ [("a.txt", Some (Sample.fileStats 12 1700000001000));
                      ("a", Some (Sample.fileStats 1 1700000002000));
                      ("a b", Some (Sample.fileStats 2 1700000003000));
                      ("png", Some (Sample.fileStats 3 1700000004000));
                      ("link.url", Some (Sample.fileStats 20 1700000005000))]
                  ++ [("ghost", None)])%list).
  { cbn [app]. repeat constructor; intros Hd Hu;
      try (vm_compute in Hd; discriminate);
      try (vm_compute in Hu; discriminate).
    eexists. vm_compute. reflexivity. }
  repeat (split; [assumption|]).
  destruct (successful_listing Sample.he_encode Sample.encodeURIComponent
              Sample.decodeURIComponent Sample.localeCompare
              Sample.sizeToString Sample.supportedIcons Sample.css
              Sample.etag Sample.toUTCString Sample.markerToString
              Sample.cwd Sample.world (Sample.opts true false)
              (Sample.request (Some "localhost:8080")) "/a/"
              "localhost:8080" _ _ _ _ _ _ H1 H2 H3 H4 H5 H6 H7)
    as (foot & _ & _ & Hok).
  exact Hok.
Defined.

(** A page is written for the sample buckets with a [host] header, and
    none without. *)
Example page_written_example :
  (exists html,
      sample_render Sample.world (Sample.request (Some "localhost:8080"))
        (Sample.opts true false) "/a/"
        [("sub", Some (Sample.dirStats 1700000006000))]
        [("link.url", Some (Sample.fileStats 20 1700000005000))]
        [("ghost", None)] "/srv/a"
      = ([WriteHead 200 "Content-Type" "text/html"; EndBody html],
         Returned tt))
  /\ sample_render Sample.world (Sample.request None)
       (Sample.opts true false) "/a/"
       [("sub", Some (Sample.dirStats 1700000006000))]
       [("link.url", Some (Sample.fileStats 20 1700000005000))]
       [("ghost", None)] "/srv/a"
     = ([], Threw (TypeError
              "Cannot read properties of undefined (reading 'endsWith')")).
Proof.
  split; [eexists|]; vm_compute; reflexivity.
Qed.

(** Under a base directory other than [/] a request path outside it
    resolves outside the root. *)
Example target_outside_root_example :
  targetDir Sample.cwd
    {| cache := "max-age=3600"; root := "/srv"; baseDir := "/base";
       humanReadable := true; hidePermissions := false;
       handleError := true; showDotfiles := false; si := false;
       weakEtags := true |}
    "/srvx/a"
  = "/srvx/a".
Proof. reflexivity. Qed.
